(** * job-finder-backend: the scrape pipeline and the resume pipeline

  A shallow embedding of the two extraction pipelines of the repository:

  - [ResumeParser]    resume_parser.py  (text, e-mail, phone, skills)
  - [LinkedinScraper] linkedin_scraper.py (stand-alone scraper, categoriser)
  - [Main]            main.py (the scraper behind the /search-jobs endpoint,
                      and the page loop of /upload-resume)

  The two scrapers are two implementations of the same job and differ in
  several places; each one is embedded as it is written and the theorems
  say which of the two they speak about.

  Python values are modelled as follows.  A [str] is a [string] whose
  characters are the code points 0..255; an [int] is a [Z]; [None] or a
  value is an [option]; a raised exception is the [Raise] branch of
  [result].  A list(set(..)) is a [gset]. *)

From Stdlib Require Import ZArith Ascii String Bool Lia Sorted.
From stdpp Require Import base list strings gmap.

Open Scope string_scope.

(** ** Python primitives *)

Module Py.

(** Exceptions that the embedded code can raise. *)
Inductive exn : Type :=
| TypeError
| KeyError
| NoSuchElementException
| WebDriverException.

Inductive result (A : Type) : Type :=
| Ok (a : A)
| Raise (e : exn).
Arguments Ok {A} a.
Arguments Raise {A} e.

Definition bind {A B} (m : result A) (f : A -> result B) : result B :=
  match m with
  | Ok a => f a
  | Raise e => Raise e
  end.

Definition code (c : ascii) : nat := nat_of_ascii c.

Definition in_range (lo hi : nat) (c : ascii) : bool :=
  (lo <=? code c)%nat && (code c <=? hi)%nat.

Definition is_char (a c : ascii) : bool := (code a =? code c)%nat.

Definition is_upper (c : ascii) : bool := in_range 65 90 c.
Definition is_lower (c : ascii) : bool := in_range 97 122 c.
Definition is_letter (c : ascii) : bool := is_upper c || is_lower c.

(** [\d] on code points below 256. *)
Definition is_digit (c : ascii) : bool := in_range 48 57 c.

(** [\s], and the characters removed by [str.strip()]: TAB..CR, FS..US,
    space, NEL and the no-break space. *)
Definition is_space (c : ascii) : bool :=
  in_range 9 13 c || in_range 28 32 c
  || (code c =? 133)%nat || (code c =? 160)%nat.

(** [\w]: alphanumeric code points and the underscore. *)
Definition is_word (c : ascii) : bool :=
  is_letter c || is_digit c || (code c =? 95)%nat
  || (code c =? 170)%nat || in_range 178 179 c || (code c =? 181)%nat
  || in_range 185 186 c || in_range 188 190 c
  || in_range 192 214 c || in_range 216 246 c || in_range 248 255 c.

(** [str.lower()], one character. *)
Definition lower_char (c : ascii) : ascii :=
  if is_upper c || in_range 192 214 c || in_range 216 222 c
  then ascii_of_nat (code c + 32)
  else c.

(** [str.upper()] on an ASCII character (only used by [title]). *)
Definition upper_char (c : ascii) : ascii :=
  if is_lower c then ascii_of_nat (code c - 32) else c.

Fixpoint lower (s : string) : string :=
  match s with
  | EmptyString => EmptyString
  | String c s' => String (lower_char c) (lower s')
  end.

(** [str.title()] on ASCII text: a letter that follows a letter is
    lowered, any other letter is raised. *)
Fixpoint title_from (previous_is_cased : bool) (s : string) : string :=
  match s with
  | EmptyString => EmptyString
  | String c s' =>
      String (if previous_is_cased then lower_char c else upper_char c)
             (title_from (is_letter c) s')
  end.

Definition title (s : string) : string := title_from false s.

(** [needle in hay] on strings. *)
Fixpoint contains (needle hay : string) : bool :=
  String.prefix needle hay
  || match hay with
     | EmptyString => false
     | String _ hay' => contains needle hay'
     end.

(** [s.replace(c, "")] for a one-character [c]. *)
Fixpoint remove_char (a : ascii) (s : string) : string :=
  match s with
  | EmptyString => EmptyString
  | String c s' =>
      if is_char a c then remove_char a s' else String c (remove_char a s')
  end.

(** [s.replace(c, by)] for a one-character [c]. *)
Fixpoint replace_char (a : ascii) (by_ : string) (s : string) : string :=
  match s with
  | EmptyString => EmptyString
  | String c s' =>
      if is_char a c then by_ ++ replace_char a by_ s'
      else String c (replace_char a by_ s')
  end.

(** [sep.join(xs)]. *)
Fixpoint join (sep : string) (xs : list string) : string :=
  match xs with
  | [] => ""
  | [x] => x
  | x :: xs' => x ++ sep ++ join sep xs'
  end.

(** [xs[:n]] with Python's reading of a negative bound. *)
Definition slice_to {A} (n : Z) (xs : list A) : list A :=
  if (0 <=? n)%Z then take (Z.to_nat n) xs
  else take (length xs - Z.to_nat (- n)) xs.

(** [s.strip()]. *)
Fixpoint lstrip (s : string) : string :=
  match s with
  | EmptyString => EmptyString
  | String c s' => if is_space c then lstrip s' else s
  end.

Fixpoint rstrip (s : string) : string :=
  match s with
  | EmptyString => EmptyString
  | String c s' =>
      match rstrip s' with
      | EmptyString => if is_space c then EmptyString else String c EmptyString
      | r => String c r
      end
  end.

Definition strip (s : string) : string := rstrip (lstrip s).

(** Truth value of an optional string ([None] and [""] are false). *)
Definition truthy (o : option string) : bool :=
  match o with
  | Some (String _ _) => true
  | _ => false
  end.

(** [s.split(c)] for a one-character separator [c]: the pieces between
    the separators, at least one piece. *)
Fixpoint split_char (a : ascii) (s : string) : list string :=
  match s with
  | EmptyString => [EmptyString]
  | String c s' =>
      if is_char a c then EmptyString :: split_char a s'
      else match split_char a s' with
           | piece :: pieces => String c piece :: pieces
           | [] => [String c EmptyString]
           end
  end.

(** [s.split()]: the maximal runs of characters that are not white
    space. *)
Fixpoint split_ws (s : string) : list string :=
  match s with
  | EmptyString => []
  | String c s' =>
      if is_space c then split_ws s'
      else match s' with
           | EmptyString => [String c EmptyString]
           | String c' _ =>
               if is_space c' then String c EmptyString :: split_ws s'
               else match split_ws s' with
                    | word :: words => String c word :: words
                    | [] => [String c EmptyString]
                    end
           end
  end.

(** [s.split(sep)] for a separator of at least one character: the text is
    cut at the occurrences of [sep] found from left to right, [skip]
    counting the characters of the occurrence that are still to pass. *)
Fixpoint split_from (sep : string) (skip : nat) (s : string) : list string :=
  match s with
  | EmptyString => [EmptyString]
  | String c s' =>
      match skip with
      | S skip' => split_from sep skip' s'
      | 0 =>
          if String.prefix sep s
          then EmptyString :: split_from sep (pred (String.length sep)) s'
          else match split_from sep 0 s' with
               | piece :: pieces => String c piece :: pieces
               | [] => [String c EmptyString]
               end
      end
  end.

Definition split (sep s : string) : list string := split_from sep 0 s.

(** [s.replace(old, new)] for an [old] of at least one character: the
    occurrences of [old] found from left to right are replaced, [skip]
    counting the characters of the occurrence that are still to pass. *)
Fixpoint replace_from (old new : string) (skip : nat) (s : string) : string :=
  match s with
  | EmptyString => EmptyString
  | String c s' =>
      match skip with
      | S skip' => replace_from old new skip' s'
      | 0 =>
          if String.prefix old s
          then new ++ replace_from old new (pred (String.length old)) s'
          else String c (replace_from old new 0 s')
      end
  end.

Definition replace (old new s : string) : string := replace_from old new 0 s.

End Py.

(** ** The fragment of [re] used by the repository

  Every quantifier of the repository's patterns sits on a single
  character class, so a pattern is a sequence of atoms: a class repeated
  between [lo] and [hi] times (greedy), or the assertion [\b].  Matching
  is the backtracking search of [re]: the longest run first, shorter runs
  when the rest of the pattern fails. *)

Module Re.
Import Py.

Inductive atom : Type :=
| Rep (cls : ascii -> bool) (lo : nat) (hi : option nat)
| WordBoundary.

Definition pattern := list atom.

Definition lit (a : ascii) : atom := Rep (is_char a) 1 (Some 1).
Definition opt (cls : ascii -> bool) : atom := Rep cls 0 (Some 1).
Definition plus (cls : ascii -> bool) : atom := Rep cls 1 None.
Definition exactly (n : nat) (cls : ascii -> bool) : atom := Rep cls n (Some n).
Definition at_least (n : nat) (cls : ascii -> bool) : atom := Rep cls n None.

(** Length of the longest prefix of [s] inside [cls], at most [hi]. *)
Fixpoint run (cls : ascii -> bool) (hi : option nat) (s : string) : nat :=
  match hi, s with
  | Some 0, _ => 0
  | _, EmptyString => 0
  | _, String c s' =>
      if cls c then S (run cls (pred <$> hi) s') else 0
  end.

Fixpoint sdrop (n : nat) (s : string) : string :=
  match n, s with
  | S n', String _ s' => sdrop n' s'
  | _, _ => s
  end.

(** The character before position [k] of [s], [prev] being the one
    before position 0. *)
Definition char_before (k : nat) (prev : option ascii) (s : string)
  : option ascii :=
  match k with
  | 0 => prev
  | S k' => String.get k' s
  end.

Definition word_opt (o : option ascii) : bool :=
  match o with
  | Some c => is_word c
  | None => false
  end.

Definition head_char (s : string) : option ascii :=
  match s with
  | EmptyString => None
  | String c _ => Some c
  end.

(** Tries [f (lo + d)], [f (lo + d - 1)], ..., [f lo]. *)
Fixpoint try_down {A} (f : nat -> option A) (lo d : nat) : option A :=
  match f (lo + d) with
  | Some x => Some x
  | None =>
      match d with
      | 0 => None
      | S d' => try_down f lo d'
      end
  end.

(** Matches [pat] at the start of [s]; the result is the number of
    characters of the match. *)
Fixpoint match_here (pat : pattern) (prev : option ascii) (s : string)
  : option nat :=
  match pat with
  | [] => Some 0
  | WordBoundary :: pat' =>
      if xorb (word_opt prev) (word_opt (head_char s))
      then match_here pat' prev s
      else None
  | Rep cls lo hi :: pat' =>
      let n := run cls hi s in
      if (n <? lo)%nat then None
      else
        try_down
          (fun k =>
             match match_here pat' (char_before k prev s) (sdrop k s) with
             | Some r => Some (k + r)
             | None => None
             end)
          lo (n - lo)
  end.

(** [re.findall]: the matches from left to right, without overlap.
    [skip] counts the characters that still belong to the last match. *)
Fixpoint findall_from (pat : pattern) (prev : option ascii) (skip : nat)
                      (s : string) : list string :=
  match s with
  | EmptyString =>
      match skip, match_here pat prev s with
      | 0, Some _ => [EmptyString]
      | _, _ => []
      end
  | String c s' =>
      match skip with
      | S skip' => findall_from pat (Some c) skip' s'
      | 0 =>
          match match_here pat prev s with
          | Some m => substring 0 m s :: findall_from pat (Some c) (pred m) s'
          | None => findall_from pat (Some c) 0 s'
          end
      end
  end.

Definition findall (pat : pattern) (text : string) : list string :=
  findall_from pat None 0 text.

End Re.

(** ** resume_parser.py *)

Module ResumeParser.
Import Py Re.

(** A page of an opened PDF, seen through [page.extract_text()]
    (pdfplumber) or [page.get_text()] (PyMuPDF): the text of the page,
    the empty string when the page has none. *)
Definition page := string.

(** [extract_text_from_pdf]: [text = ""], then [text += ...] page by
    page. *)
Definition extract_text_from_pdf (pages : list page) : string :=
  fold_left (fun text p => text ++ p) pages "".

(** [[A-Za-z0-9._%+-]] *)
Definition local_part (c : ascii) : bool :=
  is_letter c || is_digit c
  || is_char "." c || is_char "_" c || is_char "%" c
  || is_char "+" c || is_char "-" c.

(** [[A-Za-z0-9.-]] *)
Definition domain_part (c : ascii) : bool :=
  is_letter c || is_digit c || is_char "." c || is_char "-" c.

(** [[A-Z|a-z]]: the bar is a member of the class. *)
Definition tld_part (c : ascii) : bool :=
  is_upper c || is_char "|" c || is_lower c.

(** [\b[A-Za-z0-9._%+-]+@[A-Za-z0-9.-]+\.[A-Z|a-z]{2,}\b] *)
Definition email_pattern : pattern :=
  [ WordBoundary; plus local_part; lit "@"; plus domain_part; lit ".";
    at_least 2 tld_part; WordBoundary ].

(** [emails[0] if emails else None] *)
Definition extract_email (text : string) : option string :=
  match findall email_pattern text with
  | email :: _ => Some email
  | [] => None
  end.

(** [[-\s]] *)
Definition separator (c : ascii) : bool := is_char "-" c || is_space c.

Definition phone_patterns : list pattern :=
  [ [ lit "+"; lit "9"; lit "1"; opt separator; exactly 10 is_digit ];
    [ lit "+"; lit "9"; lit "1"; exactly 10 is_digit ];
    [ exactly 10 is_digit ];
    [ exactly 5 is_digit; opt is_space; exactly 5 is_digit ] ].

(** [phones[0].replace(' ', '').replace('-', '')] *)
Definition clean_phone (phone : string) : string :=
  remove_char "-" (remove_char " " phone).

(** The loop of [extract_phone] over the remaining patterns. *)
Fixpoint extract_phone_with (patterns : list pattern) (text : string)
  : option string :=
  match patterns with
  | [] => None
  | pat :: rest =>
      match findall pat text with
      | phone :: _ => Some (clean_phone phone)
      | [] => extract_phone_with rest text
      end
  end.

Definition extract_phone (text : string) : option string :=
  extract_phone_with phone_patterns text.

Definition skill_keywords : list string :=
  [ "python"; "javascript"; "java"; "react"; "node"; "fastapi";
    "flask"; "django"; "html"; "css"; "sql"; "mysql"; "mongodb";
    "tensorflow"; "pytorch"; "scikit-learn"; "pandas"; "numpy";
    "langchain"; "llm"; "nlp"; "machine learning"; "deep learning";
    "ai"; "artificial intelligence"; "git"; "github"; "docker";
    "aws"; "azure"; "gcp"; "api"; "rest"; "graphql";
    "typescript"; "angular"; "vue"; "express"; "bootstrap";
    "tailwind"; "redux"; "nextjs"; "nestjs"; "spring boot";
    "c++"; "c#"; "ruby"; "php"; "swift"; "kotlin"; "rust";
    "opencv"; "keras"; "spark"; "hadoop"; "kafka"; "redis";
    "faiss"; "hugging face"; "rag"; "semantic search" ].

(** The loop of [extract_skills]: the title-cased keywords found in
    [text_lower], in vocabulary order. *)
Fixpoint found_skills (keywords : list string) (text_lower : string)
  : list string :=
  match keywords with
  | [] => []
  | skill :: rest =>
      if contains skill text_lower
      then title skill :: found_skills rest text_lower
      else found_skills rest text_lower
  end.

(** [list(set(found_skills))]: the order of the returned list is the
    iteration order of a set, so the result is kept as a set. *)
Definition extract_skills (text : string) : gset string :=
  list_to_set (found_skills skill_keywords (lower text)).

(** [extract_name]: the first of the first five lines that, stripped,
    is not empty, has at most four words and no "@". *)
Definition name_like (line : string) : bool :=
  negb (String.eqb line "")
  && (length (split_ws line) <=? 4)%nat
  && negb (contains "@" line).

Fixpoint first_name_like (lines : list string) : option string :=
  match lines with
  | [] => None
  | line :: rest =>
      let line := strip line in
      if name_like line then Some line else first_name_like rest
  end.

Definition extract_name (text : string) : option string :=
  let lines := split_char "010" text in
  first_name_like (slice_to 5 lines).

End ResumeParser.

(** ** The rendered page, as the scrapers query it *)

Module Dom.

(** An element found in a card: its text, and its [href] attribute when
    it has one. *)
Record element : Type := { text : string; href : option string }.

(** A node of class [base-card], seen through the four queries that a
    scraper makes on it; [None] when the query finds nothing.  The two
    scrapers do not ask in the same words (main.py looks for
    [h3.base-search-card__title], [h4.base-search-card__subtitle],
    [span.job-search-card__location] and [a.base-card__full-link],
    linkedin_scraper.py for the same three classes on any tag and for the
    first [a]); a [card] holds the answers to the scraper that reads it. *)
Record card : Type :=
  { title_elem : option element;
    company_elem : option element;
    location_elem : option element;
    link_elem : option element }.

(** The browser of one scrape call.  [chrome] is the exception raised by
    [webdriver.Chrome(...)], if it raises; [load url] stands for
    [driver.get(url)], the waits and the scrolls, and yields the cards of
    the rendered page or the exception raised on the way.
    [driver.quit()] returns nothing and is taken not to raise. *)
Record browser : Type :=
  { chrome : option Py.exn;
    load : string -> Py.result (list card) }.

End Dom.

(** ** linkedin_scraper.py *)

Module LinkedinScraper.
Import Dom.

Record job : Type :=
  { id : Z;
    title : string;
    company : string;
    location : string;
    link : option string;
    hr_email : option string }.

(** [extract_email_from_text] *)
Definition generic (email : string) : bool :=
  existsb (fun x => Py.contains x (Py.lower email))
          ["noreply"; "no-reply"; "donotreply"].

Definition extract_email_from_text (text : string) : list string :=
  match text with
  | EmptyString => []
  | _ =>
      let emails := Re.findall ResumeParser.email_pattern text in
      filter (fun email => generic email = false) emails
  end.

(** The [f_E] parameter appended to the search URL. *)
Definition experience_filter (experience_years : option Z) : string :=
  match experience_years with
  | None => ""
  | Some years =>
      if (years =? 0)%Z then "&f_E=1"
      else if (years <=? 2)%Z then "&f_E=1,2"
      else if (years <=? 5)%Z then "&f_E=3,4"
      else "&f_E=5,6"
  end.

Definition keywords (skills : list string) : string :=
  Py.join "+" (Py.slice_to 3 skills).

Definition search_url (skills : list string) (location : string)
                      (experience_years : option Z) : string :=
  "https://www.linkedin.com/jobs/search/?keywords=" ++ keywords skills
  ++ "&location=" ++ location ++ experience_filter experience_years.

(** [card.find_element(...)] raises when nothing is found. *)
Definition find_element (found : option element) : Py.result element :=
  match found with
  | Some e => Py.Ok e
  | None => Py.Raise Py.NoSuchElementException
  end.

(** The body of the [try] of one card. *)
Definition scrape_card (idx : Z) (c : card) : Py.result job :=
  Py.bind (find_element (title_elem c)) (fun title_elem =>
  Py.bind (find_element (company_elem c)) (fun company_elem =>
  Py.bind (find_element (location_elem c)) (fun location_elem =>
  Py.bind (find_element (link_elem c)) (fun link_elem =>
  Py.Ok {| id := idx;
           title := Py.strip (text title_elem);
           company := Py.strip (text company_elem);
           location := Py.strip (text location_elem);
           link := href link_elem;
           hr_email := None |})))).

(** [for idx, card in enumerate(cards, idx): try: ... jobs.append(..)
    except Exception: continue] *)
Fixpoint scrape_cards (idx : Z) (cards : list card) (jobs : list job)
  : list job :=
  match cards with
  | [] => jobs
  | c :: rest =>
      match scrape_card idx c with
      | Py.Ok job_data => scrape_cards (idx + 1) rest (jobs ++ [job_data])
      | Py.Raise _ => scrape_cards (idx + 1) rest jobs
      end
  end.

(** [scrape_linkedin_jobs]: everything, [setup_driver()] included, runs
    inside one [try] whose handler returns the empty list. *)
Definition scrape_linkedin_jobs (env : browser) (skills : list string)
    (location : string) (max_jobs : Z) (experience_years : option Z)
  : list job :=
  match chrome env with
  | Some _ => []
  | None =>
      match load env (search_url skills location experience_years) with
      | Py.Raise _ => []
      | Py.Ok job_cards => scrape_cards 1 (Py.slice_to max_jobs job_cards) []
      end
  end.

Record categorized : Type :=
  { direct_contact_jobs : list job;
    standard_jobs : list job;
    total_jobs : nat;
    jobs_with_email : nat;
    jobs_without_email : nat }.

(** The loop of [categorize_jobs] over the two growing lists. *)
Fixpoint categorize_loop (jobs jobs_with_email jobs_with_link_only : list job)
  : list job * list job :=
  match jobs with
  | [] => (jobs_with_email, jobs_with_link_only)
  | j :: rest =>
      if Py.truthy (hr_email j)
      then categorize_loop rest (jobs_with_email ++ [j]) jobs_with_link_only
      else categorize_loop rest jobs_with_email (jobs_with_link_only ++ [j])
  end.

Definition categorize_jobs (jobs : list job) : categorized :=
  let '(with_email, with_link_only) := categorize_loop jobs [] [] in
  {| direct_contact_jobs := with_email;
     standard_jobs := with_link_only;
     total_jobs := length jobs;
     jobs_with_email := length with_email;
     jobs_without_email := length with_link_only |}.

(** [get_experience_level] as the module ends up defining it: the second
    [def] of that name replaces the first. *)
Definition get_experience_level (years : option Z) : string :=
  match years with
  | None => "All Levels"
  | Some years =>
      if (years =? 0)%Z then "Fresher/Internship (0 years)"
      else if (years <=? 2)%Z then "Entry Level (0-2 years)"
      else if (years <=? 5)%Z then "Mid Level (2-5 years)"
      else "Senior Level (5+ years)"
  end.

(** The first [def get_experience_level], in force until the second one
    is reached when the module is loaded. *)
Definition get_experience_level_first (years : option Z) : string :=
  match years with
  | None => "All Levels"
  | Some years =>
      if (years <=? 2)%Z then "Entry Level (0-2 years)"
      else if (years <=? 5)%Z then "Mid Level (2-5 years)"
      else "Senior Level (5+ years)"
  end.

End LinkedinScraper.

(** ** main.py *)

Module Main.
Import Dom.

Record job : Type :=
  { title : string;
    company : string;
    location : string;
    link : string;
    experience_level : string }.

(** The [if]/[elif] chain on an [int] [experience_years]. *)
Definition experience_level_of (experience_years : Z) : string :=
  if (experience_years =? 0)%Z then "Internship"
  else if (experience_years <=? 2)%Z then "Entry level"
  else if (experience_years <=? 5)%Z then "Associate"
  else "Mid-Senior level".

(** The parameter is annotated [int]; on [None] the test [== 0] is false
    and the comparison [<= 2] raises. *)
Definition determine_experience_level (experience_years : option Z)
  : Py.result string :=
  match experience_years with
  | None => Py.Raise Py.TypeError
  | Some years => Py.Ok (experience_level_of years)
  end.

Definition skills_query (skills : list string) : string :=
  Py.join " " (Py.slice_to 3 skills).

Definition encoded_query (skills : list string) (level : string) : string :=
  let search_query := skills_query skills ++ " " ++ level in
  Py.replace_char " " "%20" search_query.

Definition encoded_location (location : string) : string :=
  Py.replace_char " " "%20" location.

Definition search_url (skills : list string) (location level : string)
  : string :=
  "https://www.linkedin.com/jobs/search/?keywords="
  ++ encoded_query skills level
  ++ "&location=" ++ encoded_location location.

(** [link_elem['href']] raises when the attribute is missing. *)
Definition get_href (e : element) : Py.result string :=
  match href e with
  | Some h => Py.Ok h
  | None => Py.Raise Py.KeyError
  end.

(** The body of the [try] of one card: [None] when the [if] on the three
    elements fails. *)
Definition parse_card (requested_location level : string) (c : card)
  : Py.result (option job) :=
  match title_elem c, company_elem c, link_elem c with
  | Some title_elem, Some company_elem, Some link_elem =>
      Py.bind (get_href link_elem) (fun h =>
      Py.Ok (Some
        {| title := Py.strip (text title_elem);
           company := Py.strip (text company_elem);
           location := match location_elem c with
                       | Some location_elem => Py.strip (text location_elem)
                       | None => requested_location
                       end;
           link := h;
           experience_level := level |}))
  | _, _, _ => Py.Ok None
  end.

(** [for card in cards: try: ... jobs.append(job) except Exception:
    continue] *)
Fixpoint parse_cards (requested_location level : string)
                     (cards : list card) (jobs : list job) : list job :=
  match cards with
  | [] => jobs
  | c :: rest =>
      match parse_card requested_location level c with
      | Py.Ok (Some j) =>
          parse_cards requested_location level rest (jobs ++ [j])
      | Py.Ok None | Py.Raise _ =>
          parse_cards requested_location level rest jobs
      end
  end.

(** The body of the outer [try]; [jobs] is still empty when it raises,
    because the card loop raises nothing. *)
Definition scrape_body (env : browser) (skills : list string)
    (requested_location : string) (experience_years : option Z)
    (max_jobs : Z) : Py.result (list job) :=
  Py.bind (determine_experience_level experience_years) (fun level =>
  Py.bind (load env (search_url skills requested_location level))
    (fun job_cards =>
  Py.Ok (parse_cards requested_location level
           (Py.slice_to (max_jobs * 2) job_cards) []))).

(** [scrape_linkedin_jobs]: the driver is built before the [try]; the
    handler of the [try] prints and goes on to [return jobs[:max_jobs]]. *)
Definition scrape_linkedin_jobs (env : browser) (skills : list string)
    (requested_location : string) (experience_years : option Z)
    (max_jobs : Z) : Py.result (list job) :=
  match chrome env with
  | Some e => Py.Raise e
  | None =>
      let jobs :=
        match scrape_body env skills requested_location experience_years
                          max_jobs with
        | Py.Ok jobs => jobs
        | Py.Raise _ => []
        end in
      Py.Ok (Py.slice_to max_jobs jobs)
  end.

(** The page loop of [upload_resume]: [resume_text += page.get_text()]. *)
Definition resume_text (doc : list ResumeParser.page) : string :=
  fold_left (fun resume_text p => resume_text ++ p) doc "".

End Main.

(** ** auth.py *)

Module Auth.

(** What [id_token.verify_oauth2_token] does with a token: it returns the
    claims of the token, raises [ValueError] with a message, or raises
    something else.  The claims that the code reads are strings. *)
Inductive verification : Type :=
| Verified (idinfo : gmap string string)
| Invalid (message : string)
| Failed.

Record user_info : Type :=
  { email : string;
    name : option string;
    picture : option string;
    google_id : string }.

(** The answer of the dependency: the user, or [HTTPException] with its
    status code and detail. *)
Inductive answer : Type :=
| User (u : user_info)
| HTTPException (status_code : Z) (detail : string).

(** What the [try] of [get_current_user] comes to: a value, a
    [ValueError], or another exception ([idinfo['email']] on a missing
    key raises [KeyError]). *)
Inductive attempt : Type :=
| Value (u : user_info)
| ValueError (message : string)
| OtherError.

Definition check_claims (idinfo : gmap string string) : attempt :=
  match idinfo !! "iss" with
  | None => OtherError
  | Some iss =>
      if bool_decide
           (iss ∈ ["accounts.google.com"; "https://accounts.google.com"])
      then
        match idinfo !! "email", idinfo !! "sub" with
        | Some e, Some sub =>
            Value {| email := e;
                     name := idinfo !! "name";
                     picture := idinfo !! "picture";
                     google_id := sub |}
        | _, _ => OtherError
        end
      else ValueError "Wrong issuer."
  end.

Definition get_current_user (verify : string -> verification)
    (token : string) : answer :=
  let tried :=
    match verify token with
    | Verified idinfo => check_claims idinfo
    | Invalid message => ValueError message
    | Failed => OtherError
    end in
  match tried with
  | Value u => User u
  | ValueError message =>
      HTTPException 401 ("Invalid authentication token: " ++ message)
  | OtherError => HTTPException 401 "Could not validate credentials"
  end.

End Auth.

(** ** main.py: the tables and the endpoints

    A table is the list of its rows in the order of their ids;
    [query.filter(...).first()] is the first row that passes the filter
    and [query.filter(...).all()] the list of those that do.  The time
    stamps of the rows and the [detail] of an [HTTPException] are left
    out; the commits are taken to succeed. *)

Module Api.

Record user : Type :=
  { user_id : Z;
    email : string;
    name : option string;
    phone : option string;
    linkedin : option string;
    profile_picture : option string }.

Record resume : Type :=
  { resume_id : Z;
    resume_user_id : Z;
    skills : option string;
    education : option string;
    resume_phone : option string;
    resume_linkedin : option string;
    github : option string }.

Record saved_job : Type :=
  { job_id : Z;
    job_user_id : Z;
    title : string;
    company : string;
    location : option string;
    link : string;
    hr_email : option string;
    status : option string }.

Record database : Type :=
  { users : list user;
    resumes : list resume;
    saved_jobs : list saved_job }.

(** An exception raised inside the [try] of an endpoint. *)
Inductive raised : Type :=
| HTTP (status_code : Z)
| Other.

Inductive result (A : Type) : Type :=
| Ok (a : A)
| Raise (e : raised).
Arguments Ok {A} a.
Arguments Raise {A} e.

(** What the client receives. *)
Inductive response (A : Type) : Type :=
| Returned (a : A)
| HTTPException (status_code : Z).
Arguments Returned {A} a.
Arguments HTTPException {A} status_code.

(** [except Exception as e: raise HTTPException(status_code=500, ...)];
    an [HTTPException] raised in the [try] is an [Exception] too. *)
Definition except_exception {A} (r : result A) : response A :=
  match r with
  | Ok a => Returned a
  | Raise _ => HTTPException 500
  end.

(** [except HTTPException: raise] before [except Exception]. *)
Definition except_http_then_exception {A} (r : result A) : response A :=
  match r with
  | Ok a => Returned a
  | Raise (HTTP status_code) => HTTPException status_code
  | Raise Other => HTTPException 500
  end.

(** [db.query(User).filter(User.email == user_email).first()] *)
Definition user_by_email (db : database) (user_email : string)
  : option user :=
  List.find (fun u => String.eqb (email u) user_email) (users db).

(** [x or y] on optional strings. *)
Definition or_else (x y : option string) : option string :=
  if Py.truthy x then x else y.

(** The id that SQLite gives to a new row: one more than the largest id
    in use. *)
Definition next_id (ids : list Z) : Z := (foldr Z.max 0 ids + 1)%Z.

(** *** /save-job *)

Record SavedJobCreate : Type :=
  { new_title : string;
    new_company : string;
    new_location : string;
    new_link : string;
    new_hr_email : option string }.

Inductive save_job_reply : Type :=
| AlreadySaved (id : Z)
| Saved (id : Z) (title company : string) (location : option string).

Definition save_job (db : database) (user_email : string)
    (job : SavedJobCreate) : database * response save_job_reply :=
  match user_by_email db user_email with
  | None => (db, except_exception (Raise (HTTP 404)))
  | Some u =>
      let existing :=
        List.find (fun j => Z.eqb (job_user_id j) (user_id u)
                            && String.eqb (link j) (new_link job))
                  (saved_jobs db) in
      match existing with
      | Some existing => (db, except_exception (Ok (AlreadySaved (job_id existing))))
      | None =>
          let saved :=
            {| job_id := next_id (job_id <$> saved_jobs db);
               job_user_id := user_id u;
               title := new_title job;
               company := new_company job;
               location := Some (new_location job);
               link := new_link job;
               hr_email := new_hr_email job;
               status := Some "pending" |} in
          ({| users := users db; resumes := resumes db;
              saved_jobs := saved_jobs db ++ [saved] |},
           except_exception
             (Ok (Saved (job_id saved) (title saved) (company saved)
                    (location saved))))
      end
  end.

(** *** /saved-jobs/me *)

Record listed_job : Type :=
  { listed_id : Z;
    listed_title : string;
    listed_company : string;
    listed_location : option string;
    listed_url : string;
    listed_hr_email : option string;
    listed_status : option string }.

Definition get_saved_jobs (db : database) (user_email : string)
  : response (nat * list listed_job) :=
  except_exception
    match user_by_email db user_email with
    | None => Raise (HTTP 404)
    | Some u =>
        let saved :=
          List.filter (fun j => Z.eqb (job_user_id j) (user_id u))
                      (saved_jobs db) in
        Ok (length saved,
            (fun j => {| listed_id := job_id j;
                         listed_title := title j;
                         listed_company := company j;
                         listed_location := location j;
                         listed_url := link j;
                         listed_hr_email := hr_email j;
                         listed_status := or_else (status j) (Some "pending") |})
              <$> saved)
    end.

(** *** DELETE /saved-jobs/{job_id} *)

Definition delete_saved_job (db : database) (user_email : string)
    (id : Z) : database * response Z :=
  match user_by_email db user_email with
  | None => (db, except_exception (Raise (HTTP 404)))
  | Some u =>
      let job :=
        List.find (fun j => Z.eqb (job_id j) id
                            && Z.eqb (job_user_id j) (user_id u))
                  (saved_jobs db) in
      match job with
      | None => (db, except_exception (Raise (HTTP 404)))
      | Some job =>
          ({| users := users db; resumes := resumes db;
              saved_jobs :=
                List.filter (fun j => negb (Z.eqb (job_id j) (job_id job)))
                            (saved_jobs db) |},
           except_exception (Ok id))
      end
  end.

(** *** PUT /user/me *)

Record UserUpdate : Type :=
  { update_name : option string;
    update_phone : option string;
    update_linkedin : option string }.

Definition apply_update (u : user) (user_update : UserUpdate) : user :=
  {| user_id := user_id u;
     email := email u;
     name := if Py.truthy (update_name user_update)
             then update_name user_update else name u;
     phone := if Py.truthy (update_phone user_update)
              then update_phone user_update else phone u;
     linkedin := if Py.truthy (update_linkedin user_update)
                 then update_linkedin user_update else linkedin u;
     profile_picture := profile_picture u |}.

Definition update_user (db : database) (user_email : string)
    (user_update : UserUpdate) : database * response user :=
  match user_by_email db user_email with
  | None => (db, except_exception (Raise (HTTP 404)))
  | Some u =>
      let u' := apply_update u user_update in
      ({| users := (fun row => if Z.eqb (user_id row) (user_id u)
                               then u' else row) <$> users db;
          resumes := resumes db;
          saved_jobs := saved_jobs db |},
       except_exception (Ok u'))
  end.

(** *** /stats/dashboard/{user_email} *)

Record stats : Type :=
  { totalApplications : nat;
    ended : nat;
    running : nat;
    pending : nat }.

(** [j.status in [...]]; [None] is in a list that holds [None]. *)
Definition status_in (options : list (option string)) (j : saved_job)
  : bool :=
  existsb (fun o => bool_decide (status j = o)) options.

Definition count_stats (jobs : list saved_job) : stats :=
  {| totalApplications := length jobs;
     ended := length (List.filter
                        (status_in [Some "rejected"; Some "accepted"]) jobs);
     running := length (List.filter
                          (status_in [Some "applied"; Some "interviewing"])
                          jobs);
     pending := length (List.filter
                          (status_in [Some "pending"; None]) jobs) |}.

Definition get_dashboard_stats (db : database) (user_email : string)
  : response stats :=
  except_exception
    match user_by_email db user_email with
    | None => Ok {| totalApplications := 0; ended := 0;
                    running := 0; pending := 0 |}
    | Some u =>
        Ok (count_stats
              (List.filter (fun j => Z.eqb (job_user_id j) (user_id u))
                           (saved_jobs db)))
    end.

(** *** /upload-resume and /resume/{user_email} *)

(** [", ".join(parsed_data.get("skills", []))], the [skills] column of
    the new row. *)
Definition stored_skills (skills : list string) : string :=
  Py.join ", " skills.

(** [resume.skills.split(', ') if resume.skills else []] *)
Definition listed_skills (skills : option string) : list string :=
  match skills with
  | Some (String c s) => Py.split ", " (String c s)
  | _ => []
  end.

Record resume_data : Type :=
  { data_name : option string;
    data_email : string;
    data_phone : option string;
    data_skills : list string;
    data_education : option string;
    data_linkedin : option string;
    data_github : option string }.

Definition get_resume (db : database) (user_email : string)
  : response resume_data :=
  except_http_then_exception
    match user_by_email db user_email with
    | None => Raise (HTTP 404)
    | Some u =>
        match List.find (fun r => Z.eqb (resume_user_id r) (user_id u))
                        (resumes db) with
        | None => Raise (HTTP 404)
        | Some r =>
            Ok {| data_name := name u;
                  data_email := email u;
                  data_phone := or_else (resume_phone r) (phone u);
                  data_skills := listed_skills (skills r);
                  data_education := education r;
                  data_linkedin := resume_linkedin r;
                  data_github := github r |}
        end
    end.

(** *** /search-jobs *)

Record search_reply : Type :=
  { total_jobs : nat;
    jobs_with_email : list Main.job;
    jobs_without_email : list Main.job }.

(** The loop on [job.get('hr_email')]: the dictionaries that
    [scrape_linkedin_jobs] of main.py builds have no such key, so [get]
    yields [None] for each of them. *)
Fixpoint separate (jobs jobs_with_email jobs_without_email : list Main.job)
  : list Main.job * list Main.job :=
  match jobs with
  | [] => (jobs_with_email, jobs_without_email)
  | j :: rest =>
      if Py.truthy None
      then separate rest (jobs_with_email ++ [j]) jobs_without_email
      else separate rest jobs_with_email (jobs_without_email ++ [j])
  end.

Definition search_jobs (db : database) (env : Dom.browser)
    (user_email : string) (skills : list string) (location : string)
    (experience_years max_jobs : Z) : response search_reply :=
  except_exception
    match user_by_email db user_email with
    | None => Raise (HTTP 404)
    | Some _ =>
        match Main.scrape_linkedin_jobs env skills location
                (Some experience_years) max_jobs with
        | Py.Raise _ => Raise Other
        | Py.Ok jobs =>
            let '(with_email, without_email) := separate jobs [] [] in
            Ok {| total_jobs := length jobs;
                  jobs_with_email := with_email;
                  jobs_without_email := without_email |}
        end
    end.

(** *** parse_resume_with_gemini *)

(** The two [if ... in result_text: result_text = result_text.replace]
    and the [strip] that follow the first [strip]. *)
Definition remove_code_fences (result_text : string) : string :=
  let result_text :=
    if Py.contains "```json" result_text
    then Py.replace "```json" "" result_text else result_text in
  let result_text :=
    if Py.contains "```" result_text
    then Py.replace "```" "" result_text else result_text in
  Py.strip result_text.

(** [generate_content] stands for the call of the model on the prompt
    built from the text, [json_loads] for [json.loads]; each yields
    [None] when it raises.  [fallback] is the dictionary of the handler. *)
Definition parse_resume_with_gemini {A} (generate_content : string -> option string)
    (json_loads : string -> option A) (fallback : A) (resume_text : string)
  : A :=
  match generate_content resume_text with
  | None => fallback
  | Some text =>
      match json_loads (remove_code_fences (Py.strip text)) with
      | Some parsed_data => parsed_data
      | None => fallback
      end
  end.

(** *** /auth/google/verify *)

Inductive sign_in_reply : Type :=
| SignedIn (is_new_user : bool) (u : user) (token : string).

Definition verify_google_token (verify : string -> Auth.verification)
    (db : database) (token : string) : database * response sign_in_reply :=
  match verify token with
  | Auth.Invalid _ => (db, HTTPException 401)
  | Auth.Failed => (db, HTTPException 500)
  | Auth.Verified idinfo =>
      match idinfo !! "email", idinfo !! "sub" with
      | Some user_email, Some _ =>
          let new_name := Some (default "" (idinfo !! "name")) in
          let picture := Some (default "" (idinfo !! "picture")) in
          match user_by_email db user_email with
          | None =>
              let u := {| user_id := next_id (user_id <$> users db);
                          email := user_email;
                          name := new_name;
                          phone := None;
                          linkedin := None;
                          profile_picture := picture |} in
              ({| users := users db ++ [u]; resumes := resumes db;
                  saved_jobs := saved_jobs db |},
               Returned (SignedIn true u token))
          | Some u =>
              let u' := {| user_id := user_id u;
                           email := email u;
                           name := new_name;
                           phone := phone u;
                           linkedin := linkedin u;
                           profile_picture := picture |} in
              ({| users := (fun row => if Z.eqb (user_id row) (user_id u)
                                       then u' else row) <$> users db;
                  resumes := resumes db;
                  saved_jobs := saved_jobs db |},
               Returned (SignedIn false u' token))
          end
      | _, _ => (db, HTTPException 500)
      end
  end.

End Api.

(** ** Notions used to state the properties *)

Module Spec.

(** The pages one after the other, nothing in between. *)
Definition pages_text (doc : list ResumeParser.page) : string :=
  foldr append "" doc.

(** A listing with a usable [hr_email]. *)
Definition has_email (j : LinkedinScraper.job) : Prop :=
  Py.truthy (LinkedinScraper.hr_email j) = true.

(** The listing that main.py makes of a card, if it makes one. *)
Definition main_listing (requested_location level : string) (c : Dom.card)
  : option Main.job :=
  match Main.parse_card requested_location level c with
  | Py.Ok (Some j) => Some j
  | _ => None
  end.

(** The listings of the cards of a page, in document order. *)
Definition main_listings (requested_location level : string)
    (cards : list Dom.card) : list Main.job :=
  omap (main_listing requested_location level) cards.

(** A card from which main.py makes a listing. *)
Definition main_complete (c : Dom.card) : Prop :=
  exists t co l h,
    Dom.title_elem c = Some t /\ Dom.company_elem c = Some co
    /\ Dom.link_elem c = Some l /\ Dom.href l = Some h.

(** The cards with their position, counted from [idx]. *)
Fixpoint numbered (idx : Z) (cards : list Dom.card) : list (Z * Dom.card) :=
  match cards with
  | [] => []
  | c :: rest => (idx, c) :: numbered (idx + 1) rest
  end.

(** The listing that linkedin_scraper.py makes of a numbered card. *)
Definition linkedin_listing (ic : Z * Dom.card) : option LinkedinScraper.job :=
  match LinkedinScraper.scrape_card ic.1 ic.2 with
  | Py.Ok j => Some j
  | Py.Raise _ => None
  end.

Definition linkedin_listings (cards : list Dom.card)
  : list LinkedinScraper.job :=
  omap linkedin_listing (numbered 1 cards).

(** A card from which linkedin_scraper.py makes a listing. *)
Definition linkedin_complete (c : Dom.card) : Prop :=
  is_Some (Dom.title_elem c) /\ is_Some (Dom.company_elem c)
  /\ is_Some (Dom.location_elem c) /\ is_Some (Dom.link_elem c).

(** The characters of [s] with every space replaced by the three
    characters of "%20". *)
Definition percent_encode_spaces (s : list ascii) : list ascii :=
  s ≫= (fun c => if decide (c = " "%char)
                 then ["%"%char; "2"%char; "0"%char] else [c]).

(** Every character of [s] is in the class [cls]. *)
Fixpoint all_in (cls : ascii -> bool) (s : string) : Prop :=
  match s with
  | EmptyString => True
  | String c s' => cls c = true /\ all_in cls s'
  end.

(** The strings that a pattern can match, the word boundaries left aside:
    one run per repeated class, of an allowed length, one after the
    other. *)
Fixpoint shaped (pat : Re.pattern) (s : string) : Prop :=
  match pat with
  | [] => s = EmptyString
  | Re.Rep cls lo hi :: pat' =>
      exists a b,
        s = a ++ b /\ lo <= String.length a
        /\ (forall h, hi = Some h -> String.length a <= h)
        /\ all_in cls a /\ shaped pat' b
  | Re.WordBoundary :: pat' => shaped pat' s
  end.

(** The number of line breaks of a text. *)
Fixpoint line_breaks (s : string) : nat :=
  match s with
  | EmptyString => 0
  | String c s' =>
      (if Py.is_char "010" c then 1 else 0) + line_breaks s'
  end.

(** What [clean_phone] can leave of an optional separator: nothing, or
    one character of the class [\s] that is not the space. *)
Definition gap (s : string) : Prop :=
  s = EmptyString
  \/ exists c, s = String c EmptyString
               /\ Py.is_space c = true /\ c <> " "%char.

(** [n] characters of the class [\d]. *)
Definition digits (n : nat) (s : string) : Prop :=
  String.length s = n /\ all_in Py.is_digit s.

(** Neither the space nor the hyphen. *)
Definition kept (c : ascii) : bool :=
  negb (Py.is_char " " c) && negb (Py.is_char "-" c).

(** The number of backticks at the start of a text. *)
Fixpoint ticks (s : string) : nat :=
  match s with
  | EmptyString => 0
  | String c s' => if Py.is_char "`" c then S (ticks s') else 0
  end.

End Spec.

(** ** Sample pages and browsers *)

Module Demo.
Import Dom.

Definition span (t : string) : element := {| text := t; href := None |}.

Definition anchor (url : string) : element := {| text := ""; href := Some url |}.

Definition full_card (n : string) : card :=
  {| title_elem := Some (span ("  Engineer " ++ n));
     company_elem := Some (span "Acme ");
     location_elem := Some (span "Pune");
     link_elem := Some (anchor ("https://www.linkedin.com/jobs/view/" ++ n)) |}.

Definition without_title (c : card) : card :=
  {| title_elem := None; company_elem := company_elem c;
     location_elem := location_elem c; link_elem := link_elem c |}.

Definition without_location (c : card) : card :=
  {| title_elem := title_elem c; company_elem := company_elem c;
     location_elem := None; link_elem := link_elem c |}.

Definition twenty_cards : list card :=
  full_card <$> [ "1"; "2"; "3"; "4"; "5"; "6"; "7"; "8"; "9"; "10";
                  "11"; "12"; "13"; "14"; "15"; "16"; "17"; "18"; "19"; "20" ].


(** Six cards without a title, then twenty complete cards. *)
Definition late_cards : list card :=
  (without_title <$> (full_card <$> ["a"; "b"; "c"; "d"; "e"; "f"]))
  ++ twenty_cards.

(** A browser that starts and renders [cards] for every URL. *)
Definition showing (cards : list card) : browser :=
  {| chrome := None; load := fun _ => Py.Ok cards |}.

(** A machine on which Chrome does not start. *)
Definition no_chrome : browser :=
  {| chrome := Some Py.WebDriverException;
     load := fun _ => Py.Raise Py.WebDriverException |}.

End Demo.

(** * Properties *)

(** ** Text extraction (resume_parser.py, main.py) *)

Section PageText.
Import ResumeParser Spec.

Lemma append_cons (x : ascii) (a b : string) :
  String x a ++ b = String x (a ++ b).
Proof. reflexivity. Qed.

Lemma append_assoc (a b c : string) : (a ++ b) ++ c = a ++ (b ++ c).
Proof.
  induction a as [|x a IH]; [done|]. by rewrite !append_cons, IH.
Qed.

Lemma append_empty_r (a : string) : a ++ "" = a.
Proof. induction a as [|x a IH]; [done|]. by rewrite append_cons, IH. Qed.

Lemma page_loop_from (doc : list page) (text : string) :
  fold_left (fun text p => text ++ p) doc text = text ++ pages_text doc.
Proof.
  revert text. induction doc as [|p doc IH]; intros text; simpl.
  - by rewrite append_empty_r.
  - by rewrite IH, append_assoc.
Qed.

Lemma pages_text_app (d1 d2 : list page) :
  pages_text (d1 ++ d2) = pages_text d1 ++ pages_text d2.
Proof.
  induction d1 as [|p d1 IH]; simpl; [done|].
  by rewrite IH, append_assoc.
Qed.

Lemma extract_text_from_pdf_pages (doc : list page) :
  extract_text_from_pdf doc = pages_text doc.
Proof. unfold extract_text_from_pdf. by rewrite page_loop_from. Qed.

Lemma resume_text_pages (doc : list page) :
  Main.resume_text doc = pages_text doc.
Proof. unfold Main.resume_text. by rewrite page_loop_from. Qed.

(** C3.  The text of a document is the text of its pages in document
    order with nothing between two pages, in [extract_text_from_pdf] and
    in the page loop of [upload_resume] alike; a page without text adds
    the empty string, so the document reads as if the page were not
    there, and both functions return a string for every document. *)
Theorem C3_text_is_concatenation_of_pages (doc before after : list page) :
  extract_text_from_pdf doc = pages_text doc
  /\ Main.resume_text doc = pages_text doc
  /\ extract_text_from_pdf (before ++ after)
     = extract_text_from_pdf before ++ extract_text_from_pdf after
  /\ extract_text_from_pdf (before ++ "" :: after)
     = extract_text_from_pdf (before ++ after)
  /\ Main.resume_text (before ++ "" :: after)
     = Main.resume_text (before ++ after).
Proof.
  repeat split.
  - apply extract_text_from_pdf_pages.
  - apply resume_text_pages.
  - rewrite !extract_text_from_pdf_pages. apply pages_text_app.
  - rewrite !extract_text_from_pdf_pages, !pages_text_app. done.
  - rewrite !resume_text_pages, !pages_text_app. done.
Qed.

End PageText.

(** ** The categoriser (linkedin_scraper.py) *)

Section Categorize.
Import LinkedinScraper Spec.

Lemma categorize_loop_filter (jobs with_email with_link_only : list job) :
  categorize_loop jobs with_email with_link_only
  = ((with_email ++ filter has_email jobs)%list,
     (with_link_only ++ filter (fun j => ~ has_email j) jobs)%list).
Proof.
  revert with_email with_link_only.
  induction jobs as [|j jobs IH]; intros a b; simpl.
  - by rewrite !app_nil_r.
  - destruct (Py.truthy (hr_email j)) eqn:E; rewrite IH.
    + rewrite filter_cons_True by exact E.
      rewrite filter_cons_False by (unfold has_email; rewrite E; auto).
      by rewrite <- app_assoc.
    + rewrite filter_cons_False by (unfold has_email; congruence).
      rewrite filter_cons_True by (unfold has_email; congruence).
      by rewrite <- app_assoc.
Qed.

Lemma categorize_jobs_filter (jobs : list job) :
  direct_contact_jobs (categorize_jobs jobs) = filter has_email jobs
  /\ standard_jobs (categorize_jobs jobs)
     = filter (fun j => ~ has_email j) jobs.
Proof.
  unfold categorize_jobs. rewrite categorize_loop_filter. simpl. done.
Qed.

(** C8.  [categorize_jobs] splits its input in two: the two lengths add
    up to the length of the input; the two outputs together hold exactly
    the listings of the input, each occurrence once, and no listing is in
    both; each output keeps the order of the input; the three counts are
    the three lengths. *)
Theorem C8_categorize_is_a_stable_partition (jobs : list job) :
  let r := categorize_jobs jobs in
  length (direct_contact_jobs r) + length (standard_jobs r) = length jobs
  /\ (direct_contact_jobs r ++ standard_jobs r)%list ≡ₚ jobs
  /\ (forall j, j ∈ direct_contact_jobs r -> j ∉ standard_jobs r)
  /\ sublist (direct_contact_jobs r) jobs
  /\ sublist (standard_jobs r) jobs
  /\ total_jobs r = length jobs
  /\ jobs_with_email r = length (direct_contact_jobs r)
  /\ jobs_without_email r = length (standard_jobs r).
Proof.
  intros r. subst r.
  destruct (categorize_jobs_filter jobs) as [Hd Hs].
  assert (Hp : (direct_contact_jobs (categorize_jobs jobs)
                ++ standard_jobs (categorize_jobs jobs))%list ≡ₚ jobs).
  { rewrite Hd, Hs. apply filter_app_complement. }
  split; [|split; [|split; [|split; [|split]]]].
  - rewrite <- length_app. by rewrite Hp.
  - exact Hp.
  - intros j. rewrite Hd, Hs, !list_elem_of_filter. tauto.
  - rewrite Hd. apply sublist_filter.
  - rewrite Hs. apply sublist_filter.
  - unfold categorize_jobs. by destruct (categorize_loop jobs [] []).
Qed.

End Categorize.

(** ** Strings *)

Section StringFacts.
Import Py.

Lemma is_char_eq (a c : ascii) : is_char a c = true <-> a = c.
Proof.
  unfold is_char, code. rewrite Nat.eqb_eq. split; [|by intros ->].
  intros H. rewrite <- (ascii_nat_embedding a), <- (ascii_nat_embedding c).
  by rewrite H.
Qed.

Lemma prefix_append (n rest : string) : String.prefix n (n ++ rest) = true.
Proof.
  induction n as [|x n IH]; [by destruct rest|].
  rewrite append_cons. simpl. by destruct (ascii_dec x x).
Qed.

Lemma prefix_inv (n h : string) :
  String.prefix n h = true -> exists rest, h = n ++ rest.
Proof.
  revert h. induction n as [|x n IH]; intros h H.
  - by exists h.
  - destruct h as [|y h]; [done|]. simpl in H.
    destruct (ascii_dec x y) as [->|]; [|done].
    destruct (IH h H) as [rest ->]. by exists rest.
Qed.

Lemma contains_nil (n : string) : contains n "" = String.prefix n "" || false.
Proof. reflexivity. Qed.

Lemma contains_cons (n : string) (y : ascii) (h : string) :
  contains n (String y h) = String.prefix n (String y h) || contains n h.
Proof. reflexivity. Qed.

(** [contains] is the substring relation. *)
Lemma contains_spec (n h : string) :
  contains n h = true <-> exists before after, h = before ++ n ++ after.
Proof.
  split.
  - induction h as [|y h IH].
    + rewrite contains_nil, orb_false_r. intros H.
      destruct (prefix_inv _ _ H) as [rest E]. by exists "", rest.
    + rewrite contains_cons, orb_true_iff. intros [H|H].
      * destruct (prefix_inv _ _ H) as [rest E]. by exists "", rest.
      * destruct (IH H) as (b & a & ->). by exists (String y b), a.
  - intros (b & a & ->). induction b as [|y b IH].
    + change ("" ++ n ++ a) with (n ++ a).
      destruct (n ++ a) as [|y r] eqn:E.
      * rewrite contains_nil, <- E, prefix_append. done.
      * rewrite contains_cons, <- E, prefix_append. done.
    + rewrite append_cons, contains_cons, IH. apply orb_true_r.
Qed.

Lemma contains_trans (a b c : string) :
  contains a b = true -> contains b c = true -> contains a c = true.
Proof.
  rewrite !contains_spec. intros (b1 & b2 & ->) (c1 & c2 & ->).
  exists (c1 ++ b1), (b2 ++ c2). by rewrite !append_assoc.
Qed.

Lemma lower_append (a b : string) : lower (a ++ b) = lower a ++ lower b.
Proof.
  induction a as [|x a IH]; [done|].
  rewrite append_cons. simpl. by rewrite IH, append_cons.
Qed.

(** A word that is some casing of [w] puts [w] into the lowered text. *)
Lemma contains_lower (w before word after : string) :
  lower word = w -> contains w (lower (before ++ word ++ after)) = true.
Proof.
  intros <-. apply contains_spec.
  exists (lower before), (lower after). by rewrite !lower_append.
Qed.


End StringFacts.

(** ** The matcher *)

Section Matcher.
Import Py Re.

Lemma run_le (cls : ascii -> bool) (hi : option nat) (s : string) :
  run cls hi s <= String.length s.
Proof.
  revert hi. induction s as [|c s IH]; intros hi.
  - by destruct hi as [[|h]|].
  - destruct hi as [[|h]|]; simpl; [lia| |];
      destruct (cls c); simpl; try lia.
    + specialize (IH (Some h)). simpl in IH. lia.
    + specialize (IH None). simpl in IH. lia.
Qed.

Lemma length_sdrop (k : nat) (s : string) :
  String.length (sdrop k s) = String.length s - k.
Proof.
  revert k. induction s as [|c s IH]; intros [|k]; simpl; done.
Qed.

Lemma try_down_Some {A} (f : nat -> option A) (lo d : nat) (x : A) :
  try_down f lo d = Some x -> exists k, lo <= k <= lo + d /\ f k = Some x.
Proof.
  induction d as [|d IH]; simpl.
  - destruct (f (lo + 0)) eqn:E; [|done]. intros [= <-].
    exists (lo + 0). split; [lia|done].
  - destruct (f (lo + S d)) eqn:E.
    + intros [= <-]. exists (lo + S d). split; [lia|done].
    + intros H. destruct (IH H) as (k & Hk & Hf). exists k. split; [lia|done].
Qed.

(** A match does not run past the end of the text. *)
Lemma match_here_le (pat : pattern) (prev : option ascii) (s : string)
    (n : nat) :
  match_here pat prev s = Some n -> n <= String.length s.
Proof.
  revert prev s n. induction pat as [|a pat IH]; intros prev s n; simpl.
  - intros [= <-]. lia.
  - destruct a as [cls lo hi|].
    + destruct (run cls hi s <? lo)%nat eqn:E; [done|].
      intros (k & Hk & Hf)%try_down_Some.
      destruct (match_here pat (char_before k prev s) (sdrop k s)) as [r|]
        eqn:Er; [|done].
      injection Hf as <-. apply IH in Er. rewrite length_sdrop in Er.
      apply Nat.ltb_ge in E. pose proof (run_le cls hi s). lia.
    + destruct (xorb _ _); [apply IH|done].
Qed.

Lemma length_substring_0 (n : nat) (s : string) :
  n <= String.length s -> String.length (substring 0 n s) = n.
Proof.
  revert n. induction s as [|c s IH]; intros [|n] H; simpl in *; try done.
  - lia.
  - rewrite IH; [done|lia].
Qed.

Lemma substring_0_prefix (n : nat) (s : string) :
  exists after, s = substring 0 n s ++ after.
Proof.
  revert n. induction s as [|c s IH]; intros [|n]; simpl.
  - by exists "".
  - by exists "".
  - by exists (String c s).
  - destruct (IH n) as [after E]. exists after.
    rewrite append_cons. by rewrite <- E.
Qed.

Lemma substring_S (i n : nat) (c : ascii) (s : string) :
  substring (S i) n (String c s) = substring i n s.
Proof. reflexivity. Qed.

(** Every string that [findall] returns is a piece of the text. *)
Lemma findall_from_contains (pat : pattern) (prev : option ascii)
    (skip : nat) (s m : string) :
  m ∈ findall_from pat prev skip s -> contains m s = true.
Proof.
  revert prev skip. induction s as [|c s IH]; intros prev skip.
  - simpl. destruct skip; [|by intros ?%elem_of_nil].
    destruct (match_here pat prev ""); [|by intros ?%elem_of_nil].
    intros [->|?%elem_of_nil]%elem_of_cons; done.
  - rewrite contains_cons, orb_true_iff.
    change (findall_from pat prev skip (String c s))
      with (match skip with
            | S skip' => findall_from pat (Some c) skip' s
            | 0 =>
                match match_here pat prev (String c s) with
                | Some k => substring 0 k (String c s)
                            :: findall_from pat (Some c) (pred k) s
                | None => findall_from pat (Some c) 0 s
                end
            end).
    destruct skip as [|skip]; [|intros H; right; by eapply IH].
    destruct (match_here pat prev (String c s)) as [k|];
      [|intros H; right; by eapply IH].
    intros [->|H]%elem_of_cons; [|right; by eapply IH].
    left. destruct (substring_0_prefix k (String c s)) as [after E].
    rewrite E at 2. apply prefix_append.
Qed.

Lemma findall_contains (pat : pattern) (text m : string) :
  m ∈ findall pat text -> contains m text = true.
Proof. apply findall_from_contains. Qed.

(** The first string that [findall] returns is the match at the leftmost
    position of the text at which the pattern matches. *)
Lemma findall_from_head (pat : pattern) (prev : option ascii) (s m : string)
    (rest : list string) :
  findall_from pat prev 0 s = m :: rest ->
  exists i,
    (forall j, j < i ->
       match_here pat (char_before j prev s) (sdrop j s) = None)
    /\ match_here pat (char_before i prev s) (sdrop i s)
       = Some (String.length m)
    /\ m = substring i (String.length m) s.
Proof.
  revert prev. induction s as [|c s IH]; intros prev.
  - simpl. destruct (match_here pat prev "") as [k|] eqn:E; [|done].
    intros [= <- <-]. exists 0. split; [lia|]. split; [|done].
    apply match_here_le in E as Hk. simpl in *.
    replace k with 0 in E by lia. done.
  - change (findall_from pat prev 0 (String c s))
      with (match match_here pat prev (String c s) with
            | Some k => substring 0 k (String c s)
                        :: findall_from pat (Some c) (pred k) s
            | None => findall_from pat (Some c) 0 s
            end).
    destruct (match_here pat prev (String c s)) as [k|] eqn:E.
    + intros H. exists 0. split; [lia|].
      assert (Hm : m = substring 0 k (String c s)) by congruence.
      apply match_here_le in E as Hk.
      rewrite Hm, length_substring_0 by done. done.
    + intros H. destruct (IH _ H) as (i & Hbefore & Hat & Hm).
      exists (S i). split; [|split].
      * intros [|j] Hj; [exact E|].
        specialize (Hbefore j ltac:(lia)). by destruct j.
      * by destruct i.
      * by rewrite substring_S.
Qed.

Lemma findall_head (pat : pattern) (text m : string) (rest : list string) :
  findall pat text = m :: rest ->
  exists i,
    (forall j, j < i ->
       match_here pat (char_before j None text) (sdrop j text) = None)
    /\ match_here pat (char_before i None text) (sdrop i text)
       = Some (String.length m)
    /\ m = substring i (String.length m) text.
Proof. apply findall_from_head. Qed.

(** And when [findall] returns nothing, the pattern matches at no
    position of the text. *)
Lemma findall_from_nil (pat : pattern) (prev : option ascii) (s : string) :
  findall_from pat prev 0 s = [] ->
  forall j, j <= String.length s ->
    match_here pat (char_before j prev s) (sdrop j s) = None.
Proof.
  revert prev. induction s as [|c s IH]; intros prev.
  - simpl. destruct (match_here pat prev "") as [k|] eqn:E; [done|].
    intros _ j Hj. by replace j with 0 by lia.
  - change (findall_from pat prev 0 (String c s))
      with (match match_here pat prev (String c s) with
            | Some k => substring 0 k (String c s)
                        :: findall_from pat (Some c) (pred k) s
            | None => findall_from pat (Some c) 0 s
            end).
    destruct (match_here pat prev (String c s)) as [k|] eqn:E; [done|].
    intros H [|j] Hj; [exact E|].
    specialize (IH _ H j ltac:(simpl in Hj; lia)). by destruct j.
Qed.

End Matcher.

(** ** Skills (resume_parser.py) *)

Section Skills.
Import Py ResumeParser.

Lemma found_skills_elem (keywords : list string) (text_lower s : string) :
  s ∈ found_skills keywords text_lower
  <-> exists skill, skill ∈ keywords
                    /\ contains skill text_lower = true /\ s = title skill.
Proof.
  induction keywords as [|k keywords IH]; simpl.
  - split; [by intros ?%elem_of_nil|]. by intros (? & ?%elem_of_nil & _).
  - destruct (contains k text_lower) eqn:E.
    + rewrite elem_of_cons, IH. split.
      * intros [->|(skill & ? & ? & ->)].
        -- exists k. split; [apply elem_of_cons; by left|done].
        -- exists skill. split; [apply elem_of_cons; by right|done].
      * intros (skill & [->|?]%elem_of_cons & ? & ->); [by left|].
        right. by exists skill.
    + rewrite IH. split.
      * intros (skill & ? & ? & ->).
        exists skill. split; [apply elem_of_cons; by right|done].
      * intros (skill & [->|?]%elem_of_cons & ? & ->); [congruence|].
        by exists skill.
Qed.

(** What [extract_skills] reports: the title-cased form of every keyword
    that occurs in the lowered text, and nothing else. *)
Lemma extract_skills_elem (text s : string) :
  s ∈ extract_skills text
  <-> exists skill, skill ∈ skill_keywords
                    /\ contains skill (lower text) = true /\ s = title skill.
Proof.
  unfold extract_skills. rewrite elem_of_list_to_set. apply found_skills_elem.
Qed.

Lemma extract_skills_reports (text skill : string) :
  skill ∈ skill_keywords -> contains skill (lower text) = true ->
  title skill ∈ extract_skills text.
Proof. intros ??. apply extract_skills_elem. by exists skill. Qed.

Lemma javascript_keyword : "javascript" ∈ skill_keywords.
Proof. unfold skill_keywords. rewrite !elem_of_cons. tauto. Qed.

Lemma java_keyword : "java" ∈ skill_keywords.
Proof. unfold skill_keywords. rewrite !elem_of_cons. tauto. Qed.

(** C10.  A text that holds "javascript" in any casing gets both
    "Javascript" and "Java"; more generally, when a keyword of the
    vocabulary occurs in the lowered text, every keyword that is a
    substring of it is reported with it; and a keyword is reported as soon
    as it occurs anywhere in the lowered text, inside a longer word or
    not. *)
Theorem C10_substring_keywords_are_co_reported (text : string) :
  (forall before word after,
      text = before ++ word ++ after -> lower word = "javascript" ->
      "Javascript" ∈ extract_skills text /\ "Java" ∈ extract_skills text)
  /\ (forall inner outer,
        inner ∈ skill_keywords -> outer ∈ skill_keywords ->
        contains inner outer = true ->
        contains outer (lower text) = true ->
        title outer ∈ extract_skills text
        /\ title inner ∈ extract_skills text)
  /\ (forall skill before after,
        skill ∈ skill_keywords ->
        lower text = before ++ skill ++ after ->
        title skill ∈ extract_skills text).
Proof.
  assert (Hgen : forall inner outer,
             inner ∈ skill_keywords -> outer ∈ skill_keywords ->
             contains inner outer = true ->
             contains outer (lower text) = true ->
             title outer ∈ extract_skills text
             /\ title inner ∈ extract_skills text).
  { intros inner outer Hi Ho Hio Hot. split.
    - by apply extract_skills_reports.
    - apply extract_skills_reports; [done|]. by eapply contains_trans. }
  split; [|split; [exact Hgen|]].
  2:{ intros skill before after Hk E. apply extract_skills_reports; [done|].
      apply contains_spec. by exists before, after. }
  intros before word after -> Hw.
  apply (Hgen "java" "javascript").
  - apply java_keyword.
  - apply javascript_keyword.
  - reflexivity.
  - by apply contains_lower.
Qed.

Lemma C10_witness :
  "Javascript" ∈ extract_skills "Senior JavaScript developer"
  /\ "Java" ∈ extract_skills "Senior JavaScript developer".
Proof.
  apply (proj1 (C10_substring_keywords_are_co_reported
                  "Senior JavaScript developer")
           "Senior " "JavaScript" " developer");
    reflexivity.
Defined.

End Skills.

(** ** Phone numbers (resume_parser.py) *)

Section Phone.
Import Py Re ResumeParser.





End Phone.


(** ** E-mail addresses (resume_parser.py, linkedin_scraper.py) *)

Section Email.
Import Py Re ResumeParser LinkedinScraper.

Lemma generic_false (email : string) :
  generic email = false
  <-> forall x, x ∈ ["noreply"; "no-reply"; "donotreply"] ->
                contains x (lower email) = false.
Proof.
  unfold generic. simpl. rewrite !orb_false_iff. split.
  - intros (H1 & H2 & H3 & _) x.
    rewrite !elem_of_cons, elem_of_nil. intros [->|[->|[->|[]]]]; done.
  - intros H. repeat split; try apply H; rewrite !elem_of_cons; tauto.
Qed.

Lemma extract_email_from_text_filter (text : string) :
  extract_email_from_text text
  = filter (fun email => generic email = false) (findall email_pattern text).
Proof. by destruct text. Qed.

(** C2, as the code has it.  [extract_email] returns the first match of
    the pattern in document order, whatever it contains, and nothing when
    there is no match.  [extract_email_from_text] drops the matches that
    contain "noreply", "no-reply" or "donotreply" in any casing and
    returns all the others, in document order.  On the text of the
    specification the former yields the "noreply" address and the latter
    the list of the one other address.  Every match is a piece of the
    text, and the first one starts at the leftmost position at which the
    pattern matches. *)
Theorem C2_first_match_and_separate_denylist (text : string) :
  extract_email text = head (findall email_pattern text)
  /\ extract_email_from_text text
     = filter (fun email => generic email = false) (findall email_pattern text)
  /\ (forall email,
        email ∈ extract_email_from_text text <->
        email ∈ findall email_pattern text
        /\ forall x, x ∈ ["noreply"; "no-reply"; "donotreply"] ->
                     contains x (lower email) = false)
  /\ sublist (extract_email_from_text text) (findall email_pattern text)
  /\ extract_email "contact: noreply@corp.com, jane@corp.com"
     = Some "noreply@corp.com"
  /\ extract_email_from_text "contact: noreply@corp.com, jane@corp.com"
     = ["jane@corp.com"]
  /\ (forall email, email ∈ findall email_pattern text ->
                    contains email text = true)
  /\ (forall email,
        extract_email text = Some email ->
        exists i,
          (forall j, j < i ->
             match_here email_pattern (char_before j None text) (sdrop j text)
             = None)
          /\ match_here email_pattern (char_before i None text) (sdrop i text)
             = Some (String.length email)
          /\ email = substring i (String.length email) text)
  /\ (extract_email text = None ->
      forall j, j <= String.length text ->
        match_here email_pattern (char_before j None text) (sdrop j text)
        = None).
Proof.
  split; [|split; [|split; [|split; [|split; [|split; [|split; [|split]]]]]]].
  - unfold extract_email. by destruct (findall email_pattern text).
  - apply extract_email_from_text_filter.
  - intros email. rewrite extract_email_from_text_filter, list_elem_of_filter.
    rewrite generic_false. tauto.
  - rewrite extract_email_from_text_filter. apply sublist_filter.
  - vm_compute. reflexivity.
  - vm_compute. reflexivity.
  - intros email. apply findall_contains.
  - unfold extract_email. intros email.
    destruct (findall email_pattern text) as [|e rest] eqn:E; [done|].
    intros [= <-]. by eapply findall_head.
  - unfold extract_email.
    destruct (findall email_pattern text) as [|e rest] eqn:E; [|done].
    intros _. by apply findall_from_nil.
Qed.

(** The example of the specification does not evaluate to the second
    address: [extract_email] has no deny list. *)
Lemma C2_counterexample :
  extract_email "contact: noreply@corp.com, jane@corp.com"
  <> Some "jane@corp.com".
Proof. vm_compute. discriminate. Qed.

End Email.

(** ** The card loops of the two scrapers *)

Section Cards.
Import Dom Spec.

Lemma slice_to_nonneg {A} (n : Z) (xs : list A) :
  (0 <= n)%Z -> Py.slice_to n xs = take (Z.to_nat n) xs.
Proof.
  intros H. unfold Py.slice_to.
  by rewrite (proj2 (Z.leb_le 0 n) H).
Qed.

Lemma slice_to_nil {A} (n : Z) : Py.slice_to n (@nil A) = [].
Proof. unfold Py.slice_to. destruct (0 <=? n)%Z; apply take_nil. Qed.

(** A slice [xs[:n]] is a leading part of [xs], for a negative [n] too. *)
Lemma slice_to_take {A} (n : Z) (xs : list A) :
  exists k, Py.slice_to n xs = take k xs
            /\ ((0 <= n)%Z -> k = Z.to_nat n)
            /\ ((n < 0)%Z -> k = length xs - Z.to_nat (- n)).
Proof.
  unfold Py.slice_to. destruct (0 <=? n)%Z eqn:E.
  - apply Z.leb_le in E. exists (Z.to_nat n). split; [done|]. split; [done|lia].
  - apply Z.leb_gt in E. exists (length xs - Z.to_nat (- n)).
    split; [done|]. split; [lia|done].
Qed.

Lemma omap_take_prefix {A B} (f : A -> option B) (n : nat) (l : list A) :
  omap f (take n l) `prefix_of` omap f l.
Proof.
  rewrite <- (take_drop n l) at 2. rewrite omap_app.
  by apply prefix_app_r.
Qed.

Lemma omap_take_all {A B} (f : A -> option B) (n : nat) (l : list A) :
  Forall (fun x => is_Some (f x)) l -> omap f (take n l) = take n (omap f l).
Proof.
  intros H. revert n. induction H as [|x l [y Hy] _ IH]; intros n.
  - by destruct n.
  - destruct n as [|n]; [done|]. simpl. rewrite Hy. simpl. by rewrite IH.
Qed.

Lemma length_omap_le {A B} (f : A -> option B) (l : list A) :
  length (omap f l) <= length l.
Proof.
  induction l as [|x l IH]; [done|].
  change (omap f (x :: l))
    with (match f x with Some y => y :: omap f l | None => omap f l end).
  destruct (f x); simpl; lia.
Qed.

Lemma length_omap_all {A B} (f : A -> option B) (l : list A) :
  Forall (fun x => is_Some (f x)) l -> length (omap f l) = length l.
Proof.
  induction 1 as [|x l [y Hy] _ IH]; [done|].
  simpl. rewrite Hy. simpl. f_equal. exact IH.
Qed.

(** *** main.py *)

Lemma parse_cards_listings (requested_location level : string)
    (cards : list card) (jobs : list Main.job) :
  Main.parse_cards requested_location level cards jobs
  = (jobs ++ main_listings requested_location level cards)%list.
Proof.
  revert jobs. induction cards as [|c cards IH]; intros jobs.
  - simpl. by rewrite app_nil_r.
  - unfold main_listings. simpl. unfold main_listing at 1.
    destruct (Main.parse_card requested_location level c) as [[j|]|e];
      rewrite IH; simpl; [|done|done].
    by rewrite <- app_assoc.
Qed.

Lemma main_listing_is_Some (requested_location level : string) (c : card) :
  is_Some (main_listing requested_location level c) <-> main_complete c.
Proof.
  unfold main_listing, main_complete, Main.parse_card, Main.get_href.
  destruct (title_elem c) as [t|], (company_elem c) as [co|],
           (link_elem c) as [l|]; simpl;
    try (split; [by intros [? ?] | by intros (?&?&?&?&?&?&?&?)]).
  destruct (href l) as [h|] eqn:E; simpl.
  - split; [|by eauto]. intros _. by exists t, co, l, h.
  - split; [by intros [? ?]|]. intros (?&?&?&?&?&?&?&?). congruence.
Qed.



(** The listing of a complete card: the stripped texts, the [href], the
    level of the query, and the location of the card or, when the card has
    none, the location that was asked for. *)
Lemma main_listing_complete (requested_location level : string) (c : card)
    (t co l : element) (h : string) :
  title_elem c = Some t -> company_elem c = Some co ->
  link_elem c = Some l -> href l = Some h ->
  main_listing requested_location level c
  = Some {| Main.title := Py.strip (text t);
            Main.company := Py.strip (text co);
            Main.location := match location_elem c with
                             | Some e => Py.strip (text e)
                             | None => requested_location
                             end;
            Main.link := h;
            Main.experience_level := level |}.
Proof.
  intros Ht Hco Hl Hh.
  unfold main_listing, Main.parse_card, Main.get_href.
  by rewrite Ht, Hco, Hl, Hh.
Qed.


(** The same for every cap, with the two slices as Python reads them. *)
Lemma main_scrape_sliced (env : browser) (skills : list string)
    (requested_location : string) (years max_jobs : Z) (cards : list card) :
  chrome env = None ->
  load env (Main.search_url skills requested_location
              (Main.experience_level_of years)) = Py.Ok cards ->
  Main.scrape_linkedin_jobs env skills requested_location (Some years) max_jobs
  = Py.Ok (Py.slice_to max_jobs
             (main_listings requested_location (Main.experience_level_of years)
                (Py.slice_to (max_jobs * 2) cards))).
Proof.
  intros Hc Hl. unfold Main.scrape_linkedin_jobs, Main.scrape_body.
  rewrite Hc. simpl. rewrite Hl. simpl.
  by rewrite parse_cards_listings.
Qed.

(** *** linkedin_scraper.py *)

Lemma scrape_cards_listings (idx : Z) (cards : list card)
    (jobs : list LinkedinScraper.job) :
  LinkedinScraper.scrape_cards idx cards jobs
  = (jobs ++ omap linkedin_listing (numbered idx cards))%list.
Proof.
  revert idx jobs. induction cards as [|c cards IH]; intros idx jobs.
  - simpl. by rewrite app_nil_r.
  - simpl. unfold linkedin_listing at 1. simpl.
    destruct (LinkedinScraper.scrape_card idx c) as [j|e]; rewrite IH; [|done].
    simpl. by rewrite <- app_assoc.
Qed.

Lemma numbered_take (idx : Z) (n : nat) (cards : list card) :
  numbered idx (take n cards) = take n (numbered idx cards).
Proof.
  revert idx n. induction cards as [|c cards IH]; intros idx n.
  - by destruct n.
  - destruct n as [|n]; [done|]. simpl. by rewrite IH.
Qed.

Lemma linkedin_listing_is_Some (idx : Z) (c : card) :
  is_Some (linkedin_listing (idx, c)) <-> linkedin_complete c.
Proof.
  unfold linkedin_listing, linkedin_complete, LinkedinScraper.scrape_card,
    LinkedinScraper.find_element. simpl.
  destruct (title_elem c), (company_elem c), (location_elem c),
           (link_elem c); simpl;
    split; try (by intros [? ?]); try (by intros (?&?&?&?));
    try (intros ([? ?]&[? ?]&[? ?]&[? ?]); done); eauto.
Qed.



(** The same for every cap. *)
Lemma linkedin_scrape_sliced (env : browser) (skills : list string)
    (location : string) (max_jobs : Z) (experience_years : option Z)
    (cards : list card) :
  chrome env = None ->
  load env (LinkedinScraper.search_url skills location experience_years)
  = Py.Ok cards ->
  LinkedinScraper.scrape_linkedin_jobs env skills location max_jobs
    experience_years
  = linkedin_listings (Py.slice_to max_jobs cards).
Proof.
  intros Hc Hl. unfold LinkedinScraper.scrape_linkedin_jobs.
  by rewrite Hc, Hl, scrape_cards_listings.
Qed.

End Cards.

(** ** The cap on the number of listings *)

Section Cap.
Import Dom Spec.

Lemma numbered_complete (idx : Z) (cards : list card) :
  Forall linkedin_complete cards ->
  Forall (fun ic => is_Some (linkedin_listing ic)) (numbered idx cards).
Proof.
  intros H. revert idx. induction H as [|c cards Hc _ IH]; intros idx; simpl.
  - constructor.
  - constructor; [by apply linkedin_listing_is_Some | apply IH].
Qed.

Lemma length_numbered (idx : Z) (cards : list card) :
  length (numbered idx cards) = length cards.
Proof.
  revert idx. induction cards as [|c cards IH]; intros idx; simpl; [done|].
  by rewrite IH.
Qed.

(** C5.  The cap bounds the cards that are read, not the listings that
    are collected.  For every page and every cap, with a started browser
    and a loaded page, main.py returns [jobs[:max_jobs]] of the listings
    of [job_cards[:max_jobs * 2]] and linkedin_scraper.py the listings of
    [job_cards[:max_jobs]]: a leading part of the listings of the page, in
    document order, that does not depend on the cards after the part
    read.  With a cap [max_jobs >= 0] the result has at most [max_jobs]
    listings: in main.py as many as there are among the first
    [2 * max_jobs] cards, up to [max_jobs]; in linkedin_scraper.py as
    many as there are among the first [max_jobs] cards.  When the first
    [max_jobs] cards are all complete, the result has exactly [max_jobs]
    listings, those of these cards. *)
Theorem C5_cap_bounds_the_cards_read
    (env : browser) (skills : list string) (location : string)
    (years max_jobs : Z) (experience_years : option Z) (cards : list card) :
  chrome env = None ->
  let level := Main.experience_level_of years in
  let n := Z.to_nat max_jobs in
  (load env (Main.search_url skills location level) = Py.Ok cards ->
   exists jobs,
     Main.scrape_linkedin_jobs env skills location (Some years) max_jobs
     = Py.Ok jobs
     /\ jobs = Py.slice_to max_jobs
                 (main_listings location level
                    (Py.slice_to (max_jobs * 2) cards))
     /\ jobs `prefix_of` main_listings location level cards
     /\ ((0 <= max_jobs)%Z ->
         jobs = take n (main_listings location level (take (2 * n) cards))
         /\ length jobs
            = n `min` length (main_listings location level
                               (take (2 * n) cards))
         /\ (Forall main_complete (take n cards) -> n <= length cards ->
             jobs = main_listings location level (take n cards)
             /\ length jobs = n)))
  /\ (load env (LinkedinScraper.search_url skills location experience_years)
      = Py.Ok cards ->
      exists jobs,
        LinkedinScraper.scrape_linkedin_jobs env skills location max_jobs
          experience_years = jobs
        /\ jobs = linkedin_listings (Py.slice_to max_jobs cards)
        /\ jobs `prefix_of` linkedin_listings cards
        /\ ((0 <= max_jobs)%Z ->
            jobs = linkedin_listings (take n cards)
            /\ length jobs <= n
            /\ (Forall linkedin_complete (take n cards) ->
                n <= length cards -> length jobs = n))).
Proof.
  intros Hc level n. split.
  - intros Hl. eexists. split; [by apply main_scrape_sliced|]. fold level.
    split; [reflexivity|]. split.
    + destruct (slice_to_take max_jobs
                  (main_listings location level
                     (Py.slice_to (max_jobs * 2) cards))) as (k & -> & _).
      destruct (slice_to_take (max_jobs * 2) cards) as (k' & -> & _).
      etrans; [apply prefix_take|]. apply omap_take_prefix.
    + intros Hm. rewrite !slice_to_nonneg by lia.
      replace (Z.to_nat (max_jobs * 2)) with (2 * n) by lia.
      fold n. split; [reflexivity|]. split; [by rewrite length_take|].
      intros Hall Hlen.
      assert (Hsome : Forall (fun c => is_Some (main_listing location level c))
                        (take n cards)).
      { eapply Forall_impl; [exact Hall|].
        intros c. apply main_listing_is_Some. }
      assert (E : take n (main_listings location level (take (2 * n) cards))
                  = main_listings location level (take n cards)).
      { replace (2 * n) with (n + n) by lia.
        rewrite <- (take_take_drop cards n n).
        unfold main_listings. rewrite omap_app.
        apply take_app_length'.
        rewrite length_omap_all by done. rewrite length_take. lia. }
      rewrite E. split; [reflexivity|].
      unfold main_listings. rewrite length_omap_all by done.
      rewrite length_take. lia.
  - intros Hl. eexists. split; [by apply linkedin_scrape_sliced|].
    split; [reflexivity|]. split.
    + destruct (slice_to_take max_jobs cards) as (k & -> & _).
      unfold linkedin_listings. rewrite numbered_take.
      apply omap_take_prefix.
    + intros Hm. rewrite slice_to_nonneg by lia. fold n.
      split; [reflexivity|]. unfold linkedin_listings. split.
      * etrans; [apply length_omap_le|].
        rewrite length_numbered, length_take. lia.
      * intros Hall Hlen.
        rewrite length_omap_all by by apply numbered_complete.
        rewrite length_numbered, length_take. lia.
Qed.

(** Twenty complete cards and a cap of five: the listings of the first
    five cards. *)
Lemma C5_witness :
  exists jobs,
    Main.scrape_linkedin_jobs (Demo.showing Demo.twenty_cards)
      ["Python"; "FastAPI"] "India" (Some 0%Z) 5 = Py.Ok jobs
    /\ length jobs = 5
    /\ jobs = main_listings "India" "Internship" (take 5 Demo.twenty_cards).
Proof.
  destruct (C5_cap_bounds_the_cards_read
              (Demo.showing Demo.twenty_cards) ["Python"; "FastAPI"] "India"
              0 5 None Demo.twenty_cards eq_refl) as [HM _].
  destruct (HM eq_refl) as (jobs & E & _ & _ & Hcap).
  destruct Hcap as (_ & _ & Hall); [lia|].
  exists jobs. split; [exact E|].
  destruct Hall as [Hjobs Hlen].
  - unfold Demo.twenty_cards. simpl.
    repeat constructor; by eexists _, _, _, _.
  - simpl. lia.
  - by split.
Defined.

(** Six cards without a title before twenty complete cards, and a cap of
    five: the page has twenty listings, main.py reads ten cards and
    returns four listings, linkedin_scraper.py reads five cards and
    returns none. *)
Lemma C5_counterexample :
  length (main_listings "India" "Internship" Demo.late_cards) = 20
  /\ length (linkedin_listings Demo.late_cards) = 20
  /\ (exists jobs,
        Main.scrape_linkedin_jobs (Demo.showing Demo.late_cards)
          ["Python"] "India" (Some 0%Z) 5 = Py.Ok jobs
        /\ length jobs = 4)
  /\ LinkedinScraper.scrape_linkedin_jobs (Demo.showing Demo.late_cards)
       ["Python"] "India" 5 None = [].
Proof.
  split; [by vm_compute|]. split; [by vm_compute|]. split.
  - eexists. split; [vm_compute; reflexivity|]. reflexivity.
  - vm_compute. reflexivity.
Qed.

End Cap.

(** ** Malformed cards *)

Section Malformed.
Import Dom Spec.





End Malformed.

(** ** Query construction *)

Section Query.
Import Dom Spec.

Lemma slice_to_take_3 (skills : list string) :
  Py.slice_to 3 (take 3 skills) = Py.slice_to 3 skills.
Proof. rewrite !slice_to_nonneg by lia. by rewrite take_take. Qed.

Lemma percent_encode_cons (c : ascii) (l : list ascii) :
  percent_encode_spaces (c :: l)
  = ((if decide (c = " "%char)
      then ["%"%char; "2"%char; "0"%char] else [c])
     ++ percent_encode_spaces l)%list.
Proof. reflexivity. Qed.

Lemma replace_space_chars (s : string) :
  list_ascii_of_string (Py.replace_char " " "%20" s)
  = percent_encode_spaces (list_ascii_of_string s).
Proof.
  induction s as [|c s IH]; [done|].
  change (list_ascii_of_string (String c s))
    with (c :: list_ascii_of_string s).
  rewrite percent_encode_cons, <- IH.
  change (Py.replace_char " " "%20" (String c s))
    with (if Py.is_char " " c
          then "%20" ++ Py.replace_char " " "%20" s
          else String c (Py.replace_char " " "%20" s)).
  destruct (Py.is_char " " c) eqn:E.
  - apply is_char_eq in E as <-. reflexivity.
  - destruct (decide (c = " "%char)) as [->|Hne]; [|reflexivity].
    by rewrite (proj2 (is_char_eq " " " ")) in E.
Qed.

Lemma percent_encode_no_space (s : list ascii) :
  " "%char ∉ percent_encode_spaces s.
Proof.
  unfold percent_encode_spaces. intros (c & H & _)%list_elem_of_bind.
  destruct (decide (c = " "%char)) as [->|Hne].
  - rewrite !elem_of_cons, elem_of_nil in H.
    destruct H as [H|[H|[H|[]]]]; discriminate H.
  - apply elem_of_cons in H as [H|H%elem_of_nil]; [congruence|done].
Qed.

(** C6, as the code has it.  Both scrapers build the keyword query from
    the first three skills only, and no number of further skills makes
    them fail.  main.py joins the three skills and the experience level
    with spaces and then replaces every space of the query and of the
    location by "%20", leaving every other character as it is;
    linkedin_scraper.py joins the three skills with "+" and writes them
    and the location into the URL unchanged. *)
Theorem C6_three_skills_and_spaces_encoded
    (skills : list string) (location level : string)
    (experience_years : option Z) :
  Main.encoded_query skills level = Main.encoded_query (take 3 skills) level
  /\ LinkedinScraper.keywords skills = LinkedinScraper.keywords (take 3 skills)
  /\ list_ascii_of_string (Main.encoded_query skills level)
     = percent_encode_spaces
         (list_ascii_of_string (Py.join " " (take 3 skills) ++ " " ++ level))
  /\ list_ascii_of_string (Main.encoded_location location)
     = percent_encode_spaces (list_ascii_of_string location)
  /\ (" "%char ∉ list_ascii_of_string (Main.encoded_query skills level))
  /\ (" "%char ∉ list_ascii_of_string (Main.encoded_location location))
  /\ Main.search_url skills location level
     = "https://www.linkedin.com/jobs/search/?keywords="
       ++ Main.encoded_query skills level
       ++ "&location=" ++ Main.encoded_location location
  /\ LinkedinScraper.search_url skills location experience_years
     = "https://www.linkedin.com/jobs/search/?keywords="
       ++ Py.join "+" (take 3 skills)
       ++ "&location=" ++ location
       ++ LinkedinScraper.experience_filter experience_years.
Proof.
  unfold Main.encoded_query, Main.encoded_location, Main.skills_query,
    LinkedinScraper.keywords, LinkedinScraper.search_url,
    LinkedinScraper.keywords.
  rewrite !slice_to_take_3, !replace_space_chars.
  rewrite !slice_to_nonneg by lia.
  repeat split; try done; apply percent_encode_no_space.
Qed.

(** linkedin_scraper.py leaves the spaces of a skill and of the location
    in the URL, and main.py leaves a "#" in the query. *)
Lemma C6_counterexample :
  Py.contains " "
    (LinkedinScraper.search_url ["Machine Learning"] "New Delhi" None) = true
  /\ LinkedinScraper.search_url ["Machine Learning"] "New Delhi" None
     = "https://www.linkedin.com/jobs/search/?keywords=Machine Learning&location=New Delhi"
  /\ Main.search_url ["C#"] "India" "Internship"
     = "https://www.linkedin.com/jobs/search/?keywords=C#%20Internship&location=India".
Proof. repeat split; vm_compute; reflexivity. Qed.

End Query.

(** ** A browser that does not start *)

Section Launch.
Import Dom Spec.

(** C7.  When [webdriver.Chrome(...)] raises, linkedin_scraper.py returns
    the empty list, which categorises into two empty sequences and three
    zero counts, whereas main.py, which builds the driver before its
    [try], lets the exception out of [scrape_linkedin_jobs]. *)
Theorem C7_browser_does_not_start
    (env : browser) (e : Py.exn) (skills : list string) (location : string)
    (max_jobs : Z) (experience_years : option Z) :
  chrome env = Some e ->
  LinkedinScraper.scrape_linkedin_jobs env skills location max_jobs
    experience_years = []
  /\ LinkedinScraper.categorize_jobs
       (LinkedinScraper.scrape_linkedin_jobs env skills location max_jobs
          experience_years)
     = {| LinkedinScraper.direct_contact_jobs := [];
          LinkedinScraper.standard_jobs := [];
          LinkedinScraper.total_jobs := 0;
          LinkedinScraper.jobs_with_email := 0;
          LinkedinScraper.jobs_without_email := 0 |}
  /\ Main.scrape_linkedin_jobs env skills location experience_years max_jobs
     = Py.Raise e.
Proof.
  intros H.
  unfold LinkedinScraper.scrape_linkedin_jobs, Main.scrape_linkedin_jobs.
  rewrite H. done.
Qed.

Lemma C7_witness :
  LinkedinScraper.scrape_linkedin_jobs Demo.no_chrome
    ["Python"] "India" 10 (Some 0%Z) = []
  /\ Main.scrape_linkedin_jobs Demo.no_chrome ["Python"] "India" (Some 0%Z) 10
     = Py.Raise Py.WebDriverException.
Proof.
  destruct (C7_browser_does_not_start Demo.no_chrome Py.WebDriverException
              ["Python"] "India" 10 (Some 0%Z) eq_refl) as (H1 & _ & H2).
  split; [exact H1 | exact H2].
Defined.

End Launch.

(** ** Experience levels *)

Section Experience.
Import Dom Spec.

(** C1, as the code has it.  For an integer number of years main.py
    derives "Internship" for 0, "Entry level" for 1 and 2, "Associate" for
    3 to 5 and "Mid-Senior level" above 5, and puts the level into the
    query.  It takes an [int]: on [None] the derivation raises, no page is
    loaded and the call returns the empty list.  linkedin_scraper.py adds
    no [f_E] parameter to the URL when the years are [None], and adds
    [f_E=1], [f_E=1,2], [f_E=3,4], [f_E=5,6] for the same four ranges. *)
Theorem C1_experience_levels
    (years : Z) (env : browser) (skills : list string) (location : string)
    (max_jobs : Z) :
  (years = 0%Z ->
   Main.determine_experience_level (Some years) = Py.Ok "Internship")
  /\ ((1 <= years <= 2)%Z ->
      Main.determine_experience_level (Some years) = Py.Ok "Entry level")
  /\ ((3 <= years <= 5)%Z ->
      Main.determine_experience_level (Some years) = Py.Ok "Associate")
  /\ ((5 < years)%Z ->
      Main.determine_experience_level (Some years)
      = Py.Ok "Mid-Senior level")
  /\ Main.determine_experience_level None = Py.Raise Py.TypeError
  /\ (chrome env = None ->
      Main.scrape_linkedin_jobs env skills location None max_jobs = Py.Ok [])
  /\ LinkedinScraper.experience_filter None = ""
  /\ LinkedinScraper.search_url skills location None
     = "https://www.linkedin.com/jobs/search/?keywords="
       ++ LinkedinScraper.keywords skills ++ "&location=" ++ location
  /\ (years = 0%Z ->
      LinkedinScraper.experience_filter (Some years) = "&f_E=1")
  /\ ((1 <= years <= 2)%Z ->
      LinkedinScraper.experience_filter (Some years) = "&f_E=1,2")
  /\ ((3 <= years <= 5)%Z ->
      LinkedinScraper.experience_filter (Some years) = "&f_E=3,4")
  /\ ((5 < years)%Z ->
      LinkedinScraper.experience_filter (Some years) = "&f_E=5,6").
Proof.
  unfold Main.determine_experience_level, Main.experience_level_of,
    LinkedinScraper.experience_filter, LinkedinScraper.search_url.
  repeat split; try done.
  - by intros ->.
  - intros H. destruct (Z.eqb_spec years 0); [lia|].
    destruct (Z.leb_spec years 2); [done|lia].
  - intros H. destruct (Z.eqb_spec years 0); [lia|].
    destruct (Z.leb_spec years 2); [lia|].
    destruct (Z.leb_spec years 5); [done|lia].
  - intros H. destruct (Z.eqb_spec years 0); [lia|].
    destruct (Z.leb_spec years 2); [lia|].
    destruct (Z.leb_spec years 5); [lia|done].
  - intros H. unfold Main.scrape_linkedin_jobs. rewrite H. simpl.
    by rewrite slice_to_nil.
  - by rewrite append_empty_r.
  - by intros ->.
  - intros H. destruct (Z.eqb_spec years 0); [lia|].
    destruct (Z.leb_spec years 2); [done|lia].
  - intros H. destruct (Z.eqb_spec years 0); [lia|].
    destruct (Z.leb_spec years 2); [lia|].
    destruct (Z.leb_spec years 5); [done|lia].
  - intros H. destruct (Z.eqb_spec years 0); [lia|].
    destruct (Z.leb_spec years 2); [lia|].
    destruct (Z.leb_spec years 5); [lia|done].
Qed.

Lemma C1_witness :
  Main.determine_experience_level (Some 2%Z) = Py.Ok "Entry level"
  /\ Main.scrape_linkedin_jobs (Demo.showing Demo.twenty_cards)
       ["Python"] "India" None 5 = Py.Ok []
  /\ LinkedinScraper.experience_filter (Some 2%Z) = "&f_E=1,2".
Proof.
  destruct (C1_experience_levels 2 (Demo.showing Demo.twenty_cards)
              ["Python"] "India" 5)
    as (_ & H1 & _ & _ & _ & H2 & _ & _ & _ & H3 & _).
  split; [apply H1; lia|]. split; [apply H2; reflexivity | apply H3; lia].
Defined.

(** With [None] years main.py derives no level and applies no search at
    all: on a page of twenty complete cards it returns nothing, where the
    same call with 0 years returns the first five listings. *)
Lemma C1_counterexample :
  Main.determine_experience_level None = Py.Raise Py.TypeError
  /\ Main.scrape_linkedin_jobs (Demo.showing Demo.twenty_cards)
       ["Python"] "India" None 5 = Py.Ok []
  /\ Main.scrape_linkedin_jobs (Demo.showing Demo.twenty_cards)
       ["Python"] "India" (Some 0%Z) 5
     = Py.Ok (main_listings "India" "Internship" (take 5 Demo.twenty_cards)).
Proof. repeat split; vm_compute; reflexivity. Qed.

End Experience.

(** * Further properties of the code *)

(** ** What a match looks like *)

Section Shapes.
Import Py Re Spec.

Lemma run_hi (cls : ascii -> bool) (h : nat) (s : string) :
  run cls (Some h) s <= h.
Proof.
  revert h. induction s as [|c s IH]; intros [|h]; simpl; try lia.
  destruct (cls c); [|lia]. specialize (IH h). simpl in IH. lia.
Qed.

Lemma run_all_in (cls : ascii -> bool) (hi : option nat) (s : string)
    (k : nat) :
  k <= run cls hi s -> all_in cls (substring 0 k s).
Proof.
  revert hi k. induction s as [|c s IH]; intros hi [|k] Hk; try done.
  destruct hi as [[|h]|]; simpl in Hk; [lia| |];
    destruct (cls c) eqn:E; try lia;
    (split; [exact E|]); eapply IH; apply le_S_n, Hk.
Qed.

Lemma substring_0_add (k r : nat) (s : string) :
  k <= String.length s ->
  substring 0 (k + r) s = substring 0 k s ++ substring 0 r (sdrop k s).
Proof.
  revert k. induction s as [|c s IH]; intros [|k] Hk; simpl in *; try done.
  - lia.
  - rewrite append_cons, IH by lia. done.
Qed.

Lemma substring_sdrop (i n : nat) (s : string) :
  substring i n s = substring 0 n (sdrop i s).
Proof.
  revert i. induction s as [|c s IH]; intros [|i]; try done.
  - by destruct n.
  - rewrite substring_S. apply IH.
Qed.

(** The text of a match has the shape of the pattern. *)
Lemma match_here_shaped (pat : pattern) (prev : option ascii) (s : string)
    (n : nat) :
  match_here pat prev s = Some n -> shaped pat (substring 0 n s).
Proof.
  revert prev s n. induction pat as [|a pat IH]; intros prev s n.
  - simpl. intros [= <-]. by destruct s.
  - destruct a as [cls lo hi|].
    + change (match_here (Rep cls lo hi :: pat) prev s)
        with (if (run cls hi s <? lo)%nat then None
              else try_down
                     (fun k =>
                        match match_here pat (char_before k prev s)
                                (sdrop k s) with
                        | Some r => Some (k + r)
                        | None => None
                        end) lo (run cls hi s - lo)).
      destruct (run cls hi s <? lo)%nat eqn:E; [done|].
      apply Nat.ltb_ge in E.
      intros (k & Hk & Hf)%try_down_Some.
      destruct (match_here pat (char_before k prev s) (sdrop k s)) as [r|]
        eqn:Er; [|done].
      injection Hf as <-.
      assert (Hrun : k <= run cls hi s) by lia.
      assert (Hlen : k <= String.length s)
        by (pose proof (run_le cls hi s); lia).
      exists (substring 0 k s), (substring 0 r (sdrop k s)).
      split; [by apply substring_0_add|].
      rewrite length_substring_0 by done.
      split; [lia|]. split; [|split].
      * intros h ->. pose proof (run_hi cls h s). lia.
      * by eapply run_all_in.
      * by eapply IH.
    + change (match_here (WordBoundary :: pat) prev s)
        with (if xorb (word_opt prev) (word_opt (head_char s))
              then match_here pat prev s else None).
      destruct (xorb _ _); [apply IH|done].
Qed.

Lemma findall_from_shaped (pat : pattern) (prev : option ascii)
    (skip : nat) (s m : string) :
  m ∈ findall_from pat prev skip s -> shaped pat m.
Proof.
  revert prev skip. induction s as [|c s IH]; intros prev skip.
  - simpl. destruct skip; [|by intros ?%elem_of_nil].
    destruct (match_here pat prev "") as [k|] eqn:E;
      [|by intros ?%elem_of_nil].
    intros [->|?%elem_of_nil]%elem_of_cons; [|done].
    apply match_here_shaped in E. by destruct k.
  - change (findall_from pat prev skip (String c s))
      with (match skip with
            | S skip' => findall_from pat (Some c) skip' s
            | 0 =>
                match match_here pat prev (String c s) with
                | Some k => substring 0 k (String c s)
                            :: findall_from pat (Some c) (pred k) s
                | None => findall_from pat (Some c) 0 s
                end
            end).
    destruct skip as [|skip]; [|apply IH].
    destruct (match_here pat prev (String c s)) as [k|] eqn:E; [|apply IH].
    intros [->|H]%elem_of_cons; [by eapply match_here_shaped|by eapply IH].
Qed.

(** Every string that [findall] returns has the shape of the pattern. *)
Lemma findall_shaped (pat : pattern) (text m : string) :
  m ∈ findall pat text -> shaped pat m.
Proof. apply findall_from_shaped. Qed.

Lemma shaped_lit (a : ascii) (pat : pattern) (s : string) :
  shaped (lit a :: pat) s -> exists b, s = String a b /\ shaped pat b.
Proof.
  intros (x & b & -> & Hlo & Hhi & Hall & Hb).
  specialize (Hhi 1 eq_refl).
  destruct x as [|c [|c' x]]; simpl in *; try lia.
  destruct Hall as [Hc _]. apply is_char_eq in Hc as <-. by exists b.
Qed.

Lemma shaped_rep (cls : ascii -> bool) (lo : nat) (hi : option nat)
    (pat : pattern) (s : string) :
  shaped (Rep cls lo hi :: pat) s ->
  exists a b, s = a ++ b /\ lo <= String.length a
              /\ (forall h, hi = Some h -> String.length a <= h)
              /\ all_in cls a /\ shaped pat b.
Proof. done. Qed.

Lemma shaped_boundary (pat : pattern) (s : string) :
  shaped (WordBoundary :: pat) s -> shaped pat s.
Proof. done. Qed.

Lemma shaped_nil (s : string) : shaped [] s -> s = "".
Proof. done. Qed.

End Shapes.

(** ** The form of the extracted e-mail addresses and phone numbers *)

Section Formats.
Import Py Re Spec ResumeParser.

(** X1.  Every address that [extract_email] or [extract_email_from_text]
    returns reads local@domain.tld: a non-empty local part of letters,
    digits and [._%+-], one "@", a non-empty domain of letters, digits,
    dots and hyphens, a dot, and at least two characters that are letters
    or the bar. *)
Theorem X1_email_has_local_domain_tld (text email : string) :
  extract_email text = Some email
  \/ email ∈ LinkedinScraper.extract_email_from_text text ->
  exists local domain tld,
    email = local ++ "@" ++ domain ++ "." ++ tld
    /\ 1 <= String.length local /\ all_in local_part local
    /\ 1 <= String.length domain /\ all_in domain_part domain
    /\ 2 <= String.length tld /\ all_in tld_part tld.
Proof.
  intros H.
  assert (Hin : email ∈ findall email_pattern text).
  { destruct H as [H|H].
    - unfold extract_email in H.
      destruct (findall email_pattern text) as [|e rest]; [done|].
      injection H as ->. apply elem_of_cons. by left.
    - rewrite extract_email_from_text_filter in H.
      by apply list_elem_of_filter in H as [_ H]. }
  apply findall_shaped in Hin. unfold email_pattern in Hin.
  apply shaped_boundary in Hin.
  apply shaped_rep in Hin as (local & r1 & -> & Hl & _ & Hlocal & Hr1).
  apply shaped_lit in Hr1 as (r2 & -> & Hr2).
  apply shaped_rep in Hr2 as (domain & r3 & -> & Hd & _ & Hdomain & Hr3).
  apply shaped_lit in Hr3 as (r4 & -> & Hr4).
  apply shaped_rep in Hr4 as (tld & r5 & -> & Ht & _ & Htld & Hr5).
  apply shaped_boundary, shaped_nil in Hr5 as ->.
  exists local, domain, tld. rewrite append_empty_r. done.
Qed.

Lemma X1_witness :
  exists local domain tld,
    "noreply@corp.com" = local ++ "@" ++ domain ++ "." ++ tld
    /\ 1 <= String.length local /\ all_in local_part local
    /\ 1 <= String.length domain /\ all_in domain_part domain
    /\ 2 <= String.length tld /\ all_in tld_part tld.
Proof.
  apply (X1_email_has_local_domain_tld
           "contact: noreply@corp.com, jane@corp.com").
  left. vm_compute. reflexivity.
Defined.

Lemma remove_char_append (a : ascii) (s t : string) :
  remove_char a (s ++ t) = remove_char a s ++ remove_char a t.
Proof.
  induction s as [|c s IH]; [done|].
  rewrite append_cons. simpl. destruct (is_char a c); [done|].
  by rewrite append_cons, IH.
Qed.

Lemma remove_char_absent (cls : ascii -> bool) (a : ascii) (s : string) :
  cls a = false -> all_in cls s -> remove_char a s = s.
Proof.
  intros Ha. induction s as [|c s IH]; [done|]. intros [Hc Hs]. simpl.
  destruct (is_char a c) eqn:E.
  - apply is_char_eq in E as <-. congruence.
  - by rewrite IH.
Qed.

Lemma clean_phone_append (s t : string) :
  clean_phone (s ++ t) = clean_phone s ++ clean_phone t.
Proof. unfold clean_phone. by rewrite !remove_char_append. Qed.

Lemma clean_phone_digits (s : string) :
  all_in is_digit s -> clean_phone s = s.
Proof.
  intros H. unfold clean_phone.
  rewrite (remove_char_absent is_digit " " s) by done.
  by apply (remove_char_absent is_digit).
Qed.

Lemma clean_phone_separator (s : string) :
  String.length s <= 1 -> all_in separator s -> gap (clean_phone s).
Proof.
  destruct s as [|c [|c' s]]; simpl.
  - intros _ _. by left.
  - intros _ [Hc _]. unfold clean_phone. simpl.
    destruct (is_char " " c) eqn:E1; [by left|]. simpl.
    destruct (is_char "-" c) eqn:E2; [by left|].
    right. exists c. split; [done|]. split.
    + unfold separator in Hc. rewrite E2 in Hc. exact Hc.
    + intros ->. by rewrite (proj2 (is_char_eq " " " ")) in E1.
  - lia.
Qed.

Lemma clean_phone_space (s : string) :
  String.length s <= 1 -> all_in is_space s -> gap (clean_phone s).
Proof.
  intros Hl Hs. apply clean_phone_separator; [done|].
  destruct s as [|c [|c' s]]; simpl in *; [done| |lia].
  destruct Hs as [Hc _]. split; [|done].
  unfold separator. rewrite Hc. apply orb_true_r.
Qed.

Lemma extract_phone_with_match (patterns : list pattern) (text p : string) :
  extract_phone_with patterns text = Some p ->
  exists pat m, pat ∈ patterns /\ m ∈ findall pat text /\ p = clean_phone m.
Proof.
  induction patterns as [|pat patterns IH]; [done|]. simpl.
  destruct (findall pat text) as [|m ms] eqn:E.
  - intros (pat' & m' & Hin & Hm & ->)%IH. exists pat', m'.
    split; [apply elem_of_cons; by right|done].
  - intros [= <-]. exists pat, m. split; [apply elem_of_cons; by left|].
    rewrite E. split; [apply elem_of_cons; by left|done].
Qed.

Lemma shaped_exactly (n : nat) (cls : ascii -> bool) (pat : pattern)
    (s : string) :
  shaped (exactly n cls :: pat) s ->
  exists a b, s = a ++ b /\ String.length a = n /\ all_in cls a
              /\ shaped pat b.
Proof.
  intros (a & b & -> & Hlo & Hhi & Hall & Hb).
  specialize (Hhi n eq_refl). exists a, b. repeat split; try done. lia.
Qed.

Lemma shaped_opt (cls : ascii -> bool) (pat : pattern) (s : string) :
  shaped (opt cls :: pat) s ->
  exists a b, s = a ++ b /\ String.length a <= 1 /\ all_in cls a
              /\ shaped pat b.
Proof.
  intros (a & b & -> & Hlo & Hhi & Hall & Hb).
  specialize (Hhi 1 eq_refl). by exists a, b.
Qed.

Lemma remove_char_all_in (cls : ascii -> bool) (a : ascii) (s : string) :
  all_in cls s -> all_in cls (remove_char a s).
Proof.
  induction s as [|c s IH]; [done|]. intros [Hc Hs]. simpl.
  destruct (is_char a c); [by apply IH|]. split; [done|by apply IH].
Qed.

Lemma remove_char_gone (a : ascii) (s : string) :
  all_in (fun c => negb (is_char a c)) (remove_char a s).
Proof.
  induction s as [|c s IH]; [done|]. simpl.
  destruct (is_char a c) eqn:E; [done|]. split; [by rewrite E|done].
Qed.

(** No space and no hyphen is left by [clean_phone]. *)
Lemma clean_phone_kept (s : string) : all_in kept (clean_phone s).
Proof.
  unfold clean_phone.
  pose proof (remove_char_gone "-" (remove_char " " s)) as H1.
  pose proof (remove_char_all_in (fun c => negb (is_char " " c)) "-" _
                (remove_char_gone " " s)) as H2.
  induction (remove_char "-" (remove_char " " s)) as [|c r IH]; [done|].
  destruct H1 as [H1 H1'], H2 as [H2 H2']. split; [|by apply IH].
  unfold kept. by rewrite H1, H2.
Qed.

(** X2.  A phone number returned by [extract_phone] holds no space and no
    hyphen, and has one of three forms, read with the classes of the
    patterns: "+91" and ten characters of [\d], ten characters of [\d],
    or twice five characters of [\d].  Where the match had a separator
    between the parts, a space or a hyphen is gone and any other
    character of [\s] (a tab, a line break) is still there. *)
Theorem X2_phone_number_forms (text phone : string) :
  extract_phone text = Some phone ->
  all_in kept phone
  /\ ((exists g d, phone = "+91" ++ g ++ d /\ gap g /\ digits 10 d)
      \/ digits 10 phone
      \/ (exists a g b, phone = a ++ g ++ b
                        /\ digits 5 a /\ gap g /\ digits 5 b)).
Proof.
  intros (pat & m & Hpat & Hm & ->)%extract_phone_with_match.
  split; [apply clean_phone_kept|].
  apply findall_shaped in Hm. unfold phone_patterns in Hpat.
  rewrite !elem_of_cons, elem_of_nil in Hpat.
  destruct Hpat as [->|[->|[->|[->|[]]]]].
  - apply shaped_lit in Hm as (r1 & -> & Hm).
    apply shaped_lit in Hm as (r2 & -> & Hm).
    apply shaped_lit in Hm as (r3 & -> & Hm).
    apply shaped_opt in Hm as (sep & r4 & -> & Hsl & Hsep & Hm).
    apply shaped_exactly in Hm as (d & r5 & -> & Hdl & Hd & ->%shaped_nil).
    left. exists (clean_phone sep), d. split; [|split].
    + rewrite append_empty_r.
      change (String "+" (String "9" (String "1" (sep ++ d))))
        with ("+91" ++ (sep ++ d)).
      rewrite !clean_phone_append, (clean_phone_digits d) by done. done.
    + by apply clean_phone_separator.
    + done.
  - apply shaped_lit in Hm as (r1 & -> & Hm).
    apply shaped_lit in Hm as (r2 & -> & Hm).
    apply shaped_lit in Hm as (r3 & -> & Hm).
    apply shaped_exactly in Hm as (d & r5 & -> & Hdl & Hd & ->%shaped_nil).
    left. exists "", d. split; [|split; [by left|done]].
    rewrite append_empty_r.
    change (String "+" (String "9" (String "1" d))) with ("+91" ++ d).
    rewrite clean_phone_append, (clean_phone_digits d) by done. done.
  - apply shaped_exactly in Hm as (d & r5 & -> & Hdl & Hd & ->%shaped_nil).
    right. left. rewrite append_empty_r, clean_phone_digits by done. done.
  - apply shaped_exactly in Hm as (a & r1 & -> & Hal & Ha & Hm).
    apply shaped_opt in Hm as (sep & r2 & -> & Hsl & Hsep & Hm).
    apply shaped_exactly in Hm as (b & r3 & -> & Hbl & Hb & ->%shaped_nil).
    right. right. exists a, (clean_phone sep), b. split; [|split; [|split]].
    + rewrite append_empty_r, !clean_phone_append.
      by rewrite (clean_phone_digits a), (clean_phone_digits b).
    + done.
    + by apply clean_phone_space.
    + done.
Qed.

(** "+91", a tab and ten digits: the tab stays. *)
Lemma X2_witness :
  all_in kept
    (String "+" (String "9" (String "1" (String "009" "9876543210"))))
  /\ ((exists g d,
         String "+" (String "9" (String "1" (String "009" "9876543210")))
         = "+91" ++ g ++ d /\ gap g /\ digits 10 d)
      \/ digits 10
           (String "+" (String "9" (String "1" (String "009" "9876543210"))))
      \/ (exists a g b,
            String "+" (String "9" (String "1" (String "009" "9876543210")))
            = a ++ g ++ b /\ digits 5 a /\ gap g /\ digits 5 b)).
Proof.
  apply (X2_phone_number_forms
           (String "+" (String "9" (String "1"
              (String "009" "9876543210"))))).
  vm_compute. reflexivity.
Defined.

End Formats.

(** ** The second phone pattern *)

Section DeadPattern.
Import Py Re Spec ResumeParser.

Lemma match_here_lit (a : ascii) (pat : pattern) (prev : option ascii)
    (s : string) :
  match_here (lit a :: pat) prev s
  = match s with
    | EmptyString => None
    | String c s' =>
        if is_char a c then S <$> match_here pat (Some c) s' else None
    end.
Proof.
  destruct s as [|c s']; [done|].
  unfold lit. simpl. destruct (is_char a c); simpl; [|done].
  replace (run (is_char a) (Some 0) s') with 0 by by destruct s'.
  simpl. by destruct (match_here pat (Some c) s').
Qed.

Lemma digit_not_separator (c : ascii) :
  is_digit c = true -> separator c = false.
Proof.
  unfold is_digit, separator, is_space, is_char, in_range.
  change (code "-") with 45.
  rewrite andb_true_iff, !Nat.leb_le. intros [H1 H2].
  rewrite !orb_false_iff, !andb_false_iff, !Nat.eqb_neq, !Nat.leb_gt. lia.
Qed.

Lemma match_digits_head (n : nat) (pat : pattern) (prev : option ascii)
    (s : string) (r : nat) :
  match_here (exactly (S n) is_digit :: pat) prev s = Some r ->
  exists c s', s = String c s' /\ is_digit c = true.
Proof.
  unfold exactly. simpl.
  destruct (run is_digit (Some (S n)) s <? S n)%nat eqn:E; [done|].
  intros _. apply Nat.ltb_ge in E. destruct s as [|c s']; simpl in E; [lia|].
  destruct (is_digit c) eqn:Ed; [by exists c, s'|lia].
Qed.

Lemma try_down_0 {A} (f : nat -> option A) (lo : nat) :
  try_down f lo 0 = f (lo + 0).
Proof. simpl. by destruct (f (lo + 0)). Qed.

(** Where the pattern without separator matches, the pattern with the
    optional separator matches the same characters. *)
Lemma optional_separator_subsumes (prev : option ascii) (s : string)
    (r : nat) :
  match_here [exactly 10 is_digit] prev s = Some r ->
  match_here [opt separator; exactly 10 is_digit] prev s = Some r.
Proof.
  intros H. destruct (match_digits_head _ _ _ _ _ H) as (c & s' & -> & Hc).
  change (match_here [opt separator; exactly 10 is_digit] prev (String c s'))
    with (let n := run separator (Some 1) (String c s') in
          if (n <? 0)%nat then None
          else try_down
                 (fun k =>
                    match match_here [exactly 10 is_digit]
                            (char_before k prev (String c s'))
                            (sdrop k (String c s')) with
                    | Some r => Some (k + r)
                    | None => None
                    end) 0 (n - 0)).
  assert (Hrun : run separator (Some 1) (String c s') = 0)
    by (simpl; by rewrite (digit_not_separator c Hc)).
  cbv zeta. rewrite Hrun.
  change (0 <? 0)%nat with false. change (0 - 0) with 0. cbv iota.
  rewrite try_down_0.
  change (char_before (0 + 0) prev (String c s')) with prev.
  change (sdrop (0 + 0) (String c s')) with (String c s').
  by rewrite H.
Qed.

Lemma second_pattern_subsumed (prev : option ascii) (s : string) (r : nat) :
  match_here [lit "+"; lit "9"; lit "1"; exactly 10 is_digit] prev s
  = Some r ->
  match_here [lit "+"; lit "9"; lit "1"; opt separator; exactly 10 is_digit]
    prev s = Some r.
Proof.
  rewrite !match_here_lit. destruct s as [|c1 s]; [done|].
  destruct (is_char "+" c1); [|done].
  rewrite !match_here_lit. destruct s as [|c2 s]; [done|].
  destruct (is_char "9" c2); [|done].
  rewrite !match_here_lit. destruct s as [|c3 s]; [done|].
  destruct (is_char "1" c3); [|done].
  destruct (match_here [exactly 10 is_digit] (Some c3) s) as [r'|] eqn:E;
    [|done].
  by rewrite (optional_separator_subsumes _ _ _ E).
Qed.

(** [findall] finds something exactly when the pattern matches at some
    position of the text. *)
Lemma findall_from_hit (pat : pattern) (prev : option ascii) (s : string) :
  findall_from pat prev 0 s <> []
  <-> exists i, i <= String.length s
                /\ match_here pat (char_before i prev s) (sdrop i s) <> None.
Proof.
  split.
  - revert prev. induction s as [|c s IH]; intros prev.
    + simpl. destruct (match_here pat prev "") eqn:E; [|done].
      intros _. exists 0. split; [done|]. simpl. congruence.
    + change (findall_from pat prev 0 (String c s))
        with (match match_here pat prev (String c s) with
              | Some k => substring 0 k (String c s)
                          :: findall_from pat (Some c) (pred k) s
              | None => findall_from pat (Some c) 0 s
              end).
      destruct (match_here pat prev (String c s)) as [k|] eqn:E.
      * intros _. exists 0. split; [lia|]. simpl. congruence.
      * intros (i & Hi & Hm)%IH. exists (S i). split; [simpl; lia|].
        by destruct i.
  - intros (i & Hi & Hm) Hnil. by apply Hm, findall_from_nil.
Qed.

(** X3.  The second phone pattern never decides: a text in which it
    matches is a text in which the first one matches, so [extract_phone]
    returns what the loop over the three other patterns returns. *)
Theorem X3_second_phone_pattern_is_subsumed (text : string) :
  extract_phone text = extract_phone_with (delete 1 phone_patterns) text
  /\ (findall [lit "+"; lit "9"; lit "1"; opt separator; exactly 10 is_digit]
        text = [] ->
      findall [lit "+"; lit "9"; lit "1"; exactly 10 is_digit] text = []).
Proof.
  assert (Hsub :
    findall [lit "+"; lit "9"; lit "1"; opt separator; exactly 10 is_digit]
      text = [] ->
    findall [lit "+"; lit "9"; lit "1"; exactly 10 is_digit] text = []).
  { intros H1.
    destruct (findall [lit "+"; lit "9"; lit "1"; exactly 10 is_digit] text)
      as [|m ms] eqn:H2; [done|].
    assert (Hhit : findall_from
                     [lit "+"; lit "9"; lit "1"; exactly 10 is_digit]
                     None 0 text <> []) by (unfold findall in H2; congruence).
    apply findall_from_hit in Hhit as (i & Hi & Hm).
    destruct (match_here [lit "+"; lit "9"; lit "1"; exactly 10 is_digit]
                (char_before i None text) (sdrop i text)) as [r|] eqn:E;
      [|done].
    apply second_pattern_subsumed in E.
    pose proof (findall_from_nil _ None text H1 i Hi) as Hnone.
    congruence. }
  split; [|exact Hsub].
  unfold extract_phone, phone_patterns. simpl.
  destruct (findall
              [lit "+"; lit "9"; lit "1"; opt separator; exactly 10 is_digit]
              text) eqn:E; [|done].
  by rewrite (Hsub eq_refl).
Qed.

End DeadPattern.

(** ** The name of the candidate (resume_parser.py) *)

Section Name.
Import Py Spec ResumeParser.

Lemma lstrip_head (s : string) (c : ascii) (r : string) :
  lstrip s = String c r -> is_space c = false.
Proof.
  induction s as [|x s IH]; [done|]. simpl.
  destruct (is_space x) eqn:E; [exact IH|]. by intros [= <- _].
Qed.

Lemma rstrip_head (s : string) (c : ascii) (r : string) :
  rstrip s = String c r -> exists r', s = String c r'.
Proof.
  destruct s as [|x s]; [done|]. simpl.
  destruct (rstrip s); [destruct (is_space x)|]; intros [= <- _]; eauto.
Qed.

Lemma rstrip_last (s b : string) (c : ascii) :
  rstrip s = b ++ String c "" -> is_space c = false.
Proof.
  revert b. induction s as [|x s IH]; intros b.
  - simpl. by destruct b.
  - simpl. destruct (rstrip s) as [|y r] eqn:E.
    + destruct (is_space x) eqn:Ex; [by destruct b|].
      destruct b as [|z b].
      * change ("" ++ String c "") with (String c ""). congruence.
      * rewrite append_cons. intros H. injection H as _ H. by destruct b.
    + destruct b as [|z b].
      * change ("" ++ String c "") with (String c ""). congruence.
      * rewrite append_cons. intros H. injection H as _ H. by apply (IH b).
Qed.

Lemma first_name_like_Some (lines : list string) (name : string) :
  first_name_like lines = Some name ->
  exists before line after,
    lines = (before ++ line :: after)%list /\ name = strip line
    /\ name_like name = true
    /\ Forall (fun l => name_like (strip l) = false) before.
Proof.
  induction lines as [|l lines IH]; [done|]. simpl.
  destruct (name_like (strip l)) eqn:E.
  - intros [= <-]. exists [], l, lines. repeat split; try done.
  - intros (before & line & after & -> & Hn & Hl & Hb)%IH.
    exists (l :: before), line, after. repeat split; try done.
    by constructor.
Qed.

(** X4.  The name that [extract_name] returns is one of the first five
    lines of the text with the white space around it removed, and the
    first of them that passes the test: it is not empty, it begins and
    ends with a character that is not white space, it has at most four
    words and no "@". *)
Theorem X4_extract_name_result (text name : string) :
  extract_name text = Some name ->
  name <> ""
  /\ (forall c r, name = String c r -> is_space c = false)
  /\ (forall b c, name = b ++ String c "" -> is_space c = false)
  /\ length (split_ws name) <= 4
  /\ contains "@" name = false
  /\ exists before line after,
       take 5 (split_char "010" text) = (before ++ line :: after)%list
       /\ name = strip line
       /\ Forall (fun l => name_like (strip l) = false) before.
Proof.
  unfold extract_name. rewrite slice_to_nonneg by lia.
  intros (before & line & after & E & -> & Hl & Hb)%first_name_like_Some.
  unfold name_like in Hl.
  apply andb_true_iff in Hl as [[H1 H2]%andb_true_iff H3].
  split; [|split; [|split; [|split; [|split]]]].
  - intros H. by rewrite H in H1.
  - intros c r H. unfold strip in H.
    apply rstrip_head in H as [r' H]. by eapply lstrip_head.
  - intros b c H. by eapply rstrip_last.
  - by apply Nat.leb_le.
  - by apply negb_true_iff.
  - by exists before, line, after.
Qed.

Lemma X4_witness :
  exists before line after,
    take 5 (split_char "010"
              (String "010" (" Jane A. Doe " ++ String "010" "jane@doe.com")))
    = (before ++ line :: after)%list
    /\ "Jane A. Doe" = strip line
    /\ Forall (fun l => name_like (strip l) = false) before.
Proof.
  apply (X4_extract_name_result
           (String "010" (" Jane A. Doe " ++ String "010" "jane@doe.com"))
           "Jane A. Doe").
  vm_compute. reflexivity.
Defined.

Lemma split_char_cons (a : ascii) (s : string) :
  exists piece pieces, split_char a s = piece :: pieces.
Proof.
  induction s as [|c s (p & ps & IH)]; simpl; [by eauto|].
  destruct (is_char a c); [by eauto|]. rewrite IH. by eauto.
Qed.

(** The first [n] lines of a text with at least [n] line breaks do not
    depend on what follows the text. *)
Lemma split_char_take (n : nat) (text more : string) :
  n <= line_breaks text ->
  take n (split_char "010" (text ++ more)) = take n (split_char "010" text).
Proof.
  revert n. induction text as [|c text IH]; intros n Hn.
  - simpl in Hn. by replace n with 0 by lia.
  - rewrite append_cons. simpl in *.
    destruct (is_char "010" c).
    + destruct n as [|n]; [done|]. simpl. rewrite IH by lia. done.
    + destruct n as [|n]; [done|].
      specialize (IH (S n) ltac:(lia)).
      destruct (split_char_cons "010" (text ++ more)) as (p & ps & E).
      destruct (split_char_cons "010" text) as (p' & ps' & E').
      rewrite E, E' in *. simpl in *. by injection IH as -> ->.
Qed.

(** X5.  [extract_name] reads the first five lines only: once a text has
    five line breaks, nothing that is appended to it changes the
    result. *)
Theorem X5_extract_name_reads_five_lines (text more : string) :
  5 <= line_breaks text ->
  extract_name (text ++ more) = extract_name text.
Proof.
  intros H. unfold extract_name. rewrite !slice_to_nonneg by lia.
  by rewrite split_char_take.
Qed.

Lemma X5_witness :
  extract_name
    (String "010" (String "010" (String "010" (String "010" (String "010" "")))) ++ "Jane Doe")
  = extract_name
      (String "010" (String "010" (String "010" (String "010" (String "010" ""))))).
Proof.
  apply X5_extract_name_reads_five_lines. simpl. lia.
Defined.

End Name.

(** ** Experience levels, once more *)

Section Thresholds.
Import Spec.

(** X6.  The description printed by linkedin_scraper.py, the filter it
    puts into the URL and the level that main.py puts into the query
    change at the same numbers of years: two numbers get the same
    description exactly when they get the same filter and exactly when
    they get the same level.  Negative numbers are treated like 1 and 2.
    The first definition of [get_experience_level], which the second one
    replaces, differs from it at 0 only. *)
Theorem X6_same_thresholds_everywhere (y1 y2 : Z) (years : option Z) :
  (LinkedinScraper.get_experience_level (Some y1)
   = LinkedinScraper.get_experience_level (Some y2)
   <-> LinkedinScraper.experience_filter (Some y1)
       = LinkedinScraper.experience_filter (Some y2))
  /\ (LinkedinScraper.experience_filter (Some y1)
      = LinkedinScraper.experience_filter (Some y2)
      <-> Main.experience_level_of y1 = Main.experience_level_of y2)
  /\ ((y1 < 0)%Z -> Main.experience_level_of y1 = Main.experience_level_of 1
                    /\ LinkedinScraper.experience_filter (Some y1)
                       = LinkedinScraper.experience_filter (Some 1%Z))
  /\ (LinkedinScraper.get_experience_level years = "All Levels"
      <-> years = None)
  /\ (LinkedinScraper.experience_filter years = "" <-> years = None)
  /\ (LinkedinScraper.get_experience_level_first years
      <> LinkedinScraper.get_experience_level years
      <-> years = Some 0%Z)
  /\ (Main.experience_level_of y1 = Main.experience_level_of 0
      <-> y1 = 0%Z)
  /\ (Main.experience_level_of y1 = Main.experience_level_of 2
      <-> (y1 <= 2)%Z /\ y1 <> 0%Z)
  /\ (Main.experience_level_of y1 = Main.experience_level_of 5
      <-> (3 <= y1 <= 5)%Z)
  /\ (Main.experience_level_of y1 = Main.experience_level_of 6
      <-> (6 <= y1)%Z).
Proof.
  unfold LinkedinScraper.get_experience_level,
    LinkedinScraper.get_experience_level_first,
    LinkedinScraper.experience_filter, Main.experience_level_of.
  split; [|split; [|split; [|split; [|split; [|split]]]]];
    [..|simpl; destruct (Z.eqb_spec y1 0), (Z.leb_spec y1 2),
          (Z.leb_spec y1 5);
        repeat split; intros; try lia; try discriminate; try done].
  - destruct (y1 =? 0)%Z, (y1 <=? 2)%Z, (y1 <=? 5)%Z,
      (y2 =? 0)%Z, (y2 <=? 2)%Z, (y2 <=? 5)%Z; split; (done || discriminate).
  - destruct (y1 =? 0)%Z, (y1 <=? 2)%Z, (y1 <=? 5)%Z,
      (y2 =? 0)%Z, (y2 <=? 2)%Z, (y2 <=? 5)%Z; split; (done || discriminate).
  - intros H. destruct (Z.eqb_spec y1 0); [lia|].
    destruct (Z.leb_spec y1 2); [done|lia].
  - destruct years as [y|]; [|done].
    destruct (y =? 0)%Z, (y <=? 2)%Z, (y <=? 5)%Z; split; discriminate.
  - destruct years as [y|]; [|done].
    destruct (y =? 0)%Z, (y <=? 2)%Z, (y <=? 5)%Z; split; discriminate.
  - destruct years as [y|]; [|split; [done|discriminate]].
    destruct (Z.eqb_spec y 0) as [->|Hne].
    + split; [done|]. intros _. simpl. discriminate.
    + split; [|intros [= ->]; done].
      intros H. exfalso. apply H.
      by destruct (y <=? 2)%Z, (y <=? 5)%Z.
Qed.

Lemma X6_witness :
  Main.experience_level_of (-3) = Main.experience_level_of 1
  /\ LinkedinScraper.experience_filter (Some (-3)%Z)
     = LinkedinScraper.experience_filter (Some 1%Z).
Proof.
  apply (X6_same_thresholds_everywhere (-3) 0 None). lia.
Defined.

End Thresholds.

(** ** What the scrapers return *)

Section Returned.
Import Dom Spec.

Lemma linkedin_listing_fields (idx : Z) (c : card) (j : LinkedinScraper.job) :
  linkedin_listing (idx, c) = Some j ->
  LinkedinScraper.id j = idx /\ LinkedinScraper.hr_email j = None.
Proof.
  unfold linkedin_listing, LinkedinScraper.scrape_card,
    LinkedinScraper.find_element. simpl.
  destruct (title_elem c), (company_elem c), (location_elem c),
           (link_elem c); simpl; try done.
  by intros [= <-].
Qed.

Lemma numbered_elem (idx : Z) (cards : list card) (i : Z) (c : card) :
  (i, c) ∈ numbered idx cards ->
  (idx <= i < idx + Z.of_nat (length cards))%Z
  /\ cards !! Z.to_nat (i - idx) = Some c.
Proof.
  revert idx. induction cards as [|c0 cards IH]; intros idx; simpl.
  - by intros ?%elem_of_nil.
  - intros [[= -> ->]|H]%elem_of_cons.
    + split; [lia|]. by replace (idx - idx)%Z with 0%Z by lia.
    + apply IH in H as [H1 H2]. split; [lia|].
      replace (Z.to_nat (i - idx)) with (S (Z.to_nat (i - (idx + 1)))) by lia.
      done.
Qed.

Lemma linkedin_listings_sorted (idx : Z) (cards : list card) :
  StronglySorted Z.lt
    (LinkedinScraper.id <$> omap linkedin_listing (numbered idx cards))
  /\ Forall (fun i => (idx <= i)%Z)
       (LinkedinScraper.id <$> omap linkedin_listing (numbered idx cards)).
Proof.
  revert idx. induction cards as [|c cards IH]; intros idx.
  - split; constructor.
  - destruct (IH (idx + 1)%Z) as [Hs Hf].
    change (omap linkedin_listing (numbered idx (c :: cards)))
      with (match linkedin_listing (idx, c) with
            | Some j => j :: omap linkedin_listing (numbered (idx + 1) cards)
            | None => omap linkedin_listing (numbered (idx + 1) cards)
            end).
    destruct (linkedin_listing (idx, c)) as [j|] eqn:E.
    + apply linkedin_listing_fields in E as [E _].
      rewrite fmap_cons, E. split.
      * constructor; [done|].
        eapply Forall_impl; [exact Hf|]. intros i Hi. simpl in Hi. lia.
      * constructor; [lia|].
        eapply Forall_impl; [exact Hf|]. intros i Hi. simpl in Hi. lia.
    + split; [done|].
      eapply Forall_impl; [exact Hf|]. intros i Hi. simpl in Hi. lia.
Qed.

Lemma linkedin_scrape_hr_email (env : browser) (skills : list string)
    (location : string) (max_jobs : Z) (experience_years : option Z) :
  Forall (fun j => LinkedinScraper.hr_email j = None)
    (LinkedinScraper.scrape_linkedin_jobs env skills location max_jobs
       experience_years).
Proof.
  unfold LinkedinScraper.scrape_linkedin_jobs.
  destruct (chrome env); [constructor|].
  destruct (load env _) as [cards|]; [|constructor].
  rewrite scrape_cards_listings. simpl.
  apply Forall_forall. intros j (ic & _ & Hj)%list_elem_of_omap.
  destruct ic as [i c]. by apply linkedin_listing_fields in Hj as [_ Hj].
Qed.

(** X7.  linkedin_scraper.py never fills [hr_email], so whatever
    [scrape_linkedin_jobs] returns is categorised as standard: no direct
    contact job, every job a standard job, in the same order. *)
Theorem X7_scraped_jobs_are_all_standard (env : browser)
    (skills : list string) (location : string) (max_jobs : Z)
    (experience_years : option Z) :
  let jobs := LinkedinScraper.scrape_linkedin_jobs env skills location
                max_jobs experience_years in
  let r := LinkedinScraper.categorize_jobs jobs in
  LinkedinScraper.direct_contact_jobs r = []
  /\ LinkedinScraper.standard_jobs r = jobs
  /\ LinkedinScraper.jobs_with_email r = 0
  /\ LinkedinScraper.jobs_without_email r = length jobs.
Proof.
  intros jobs r.
  assert (Hd : LinkedinScraper.direct_contact_jobs r = []
               /\ LinkedinScraper.standard_jobs r = jobs).
  { subst r. destruct (categorize_jobs_filter jobs) as [-> ->].
    pose proof (linkedin_scrape_hr_email env skills location max_jobs
                  experience_years) as H. fold jobs in H.
    induction H as [|j l Hj _ IH]; [done|].
    rewrite filter_cons_False, filter_cons_True.
    - destruct IH as [-> ->]. done.
    - unfold has_email. rewrite Hj. simpl. discriminate.
    - unfold has_email. rewrite Hj. simpl. discriminate. }
  destruct Hd as [Hd Hs]. split; [done|]. split; [done|].
  assert (Hc : LinkedinScraper.jobs_with_email r
               = length (LinkedinScraper.direct_contact_jobs r)
               /\ LinkedinScraper.jobs_without_email r
                  = length (LinkedinScraper.standard_jobs r)).
  { subst r. unfold LinkedinScraper.categorize_jobs.
    by destruct (LinkedinScraper.categorize_loop jobs [] []). }
  destruct Hc as [-> ->]. by rewrite Hd, Hs.
Qed.

(** X8.  The [id] of a job returned by linkedin_scraper.py is the place of
    its card on the page, counted from 1, whatever the cap: the ids go up
    strictly, each one is at most the number of cards read, which are
    [job_cards[:max_jobs]], and the job is the listing of the card at that
    place; a gap in the ids is a card that was passed over.  So an id is
    at most [max_jobs] when the cap is not negative, and at most
    [len(job_cards) + max_jobs] when it is. *)
Theorem X8_job_id_is_card_position (env : browser) (skills : list string)
    (location : string) (max_jobs : Z) (experience_years : option Z)
    (cards : list card) :
  chrome env = None ->
  load env (LinkedinScraper.search_url skills location experience_years)
  = Py.Ok cards ->
  let jobs := LinkedinScraper.scrape_linkedin_jobs env skills location
                max_jobs experience_years in
  StronglySorted Z.lt (LinkedinScraper.id <$> jobs)
  /\ (forall j, j ∈ jobs ->
        (1 <= LinkedinScraper.id j
         <= Z.of_nat (length (Py.slice_to max_jobs cards)))%Z
        /\ exists c, cards !! Z.to_nat (LinkedinScraper.id j - 1) = Some c
                     /\ linkedin_listing (LinkedinScraper.id j, c) = Some j)
  /\ ((0 <= max_jobs)%Z ->
      forall j, j ∈ jobs -> (LinkedinScraper.id j <= max_jobs)%Z)
  /\ ((max_jobs < 0)%Z ->
      forall j, j ∈ jobs ->
        (LinkedinScraper.id j <= Z.of_nat (length cards) + max_jobs)%Z).
Proof.
  intros Hc Hl jobs. subst jobs.
  rewrite (linkedin_scrape_sliced env skills location max_jobs
             experience_years cards) by done.
  assert (Hpos : forall j,
            j ∈ linkedin_listings (Py.slice_to max_jobs cards) ->
            (1 <= LinkedinScraper.id j
             <= Z.of_nat (length (Py.slice_to max_jobs cards)))%Z
            /\ exists c, cards !! Z.to_nat (LinkedinScraper.id j - 1) = Some c
                         /\ linkedin_listing (LinkedinScraper.id j, c)
                            = Some j).
  { unfold linkedin_listings.
    intros j ([i c] & Hin & Hj)%list_elem_of_omap.
    pose proof (linkedin_listing_fields _ _ _ Hj) as [Hid _]. rewrite Hid.
    apply numbered_elem in Hin as [Hi Hc']. split; [lia|].
    exists c. split; [|done].
    destruct (slice_to_take max_jobs cards) as (k & Hk & _).
    rewrite Hk in Hc'. by apply lookup_take_Some in Hc' as [Hc' _]. }
  split; [apply linkedin_listings_sorted|]. split; [exact Hpos|].
  destruct (slice_to_take max_jobs cards) as (k & Hk & Hk0 & Hk1).
  split.
  - intros Hm j [Hj _]%Hpos. rewrite Hk, length_take, (Hk0 Hm) in Hj. lia.
  - intros Hm j [Hj _]%Hpos. rewrite Hk, length_take, (Hk1 Hm) in Hj. lia.
Qed.

(** Twenty cards and a cap of -18: the two first cards are read, and no id
    is above 2. *)
Lemma X8_witness :
  Forall (fun j => (LinkedinScraper.id j <= 2)%Z)
    (LinkedinScraper.scrape_linkedin_jobs (Demo.showing Demo.twenty_cards)
       ["Python"] "India" (-18) None).
Proof.
  apply Forall_forall. intros j Hj.
  destruct (X8_job_id_is_card_position (Demo.showing Demo.twenty_cards)
              ["Python"] "India" (-18) None Demo.twenty_cards
              eq_refl eq_refl) as (_ & _ & _ & H).
  apply (H ltac:(lia) j Hj).
Defined.

(** X9.  Once the browser has started, [scrape_linkedin_jobs] of main.py
    returns a list whatever happens later, and the empty list when the
    page cannot be loaded; linkedin_scraper.py returns the empty list in
    that case as well. *)
Theorem X9_navigation_failure_gives_no_jobs (env : browser)
    (skills : list string) (location : string) (years max_jobs : Z)
    (experience_years : option Z) (e : Py.exn) :
  chrome env = None ->
  (exists jobs,
      Main.scrape_linkedin_jobs env skills location experience_years max_jobs
      = Py.Ok jobs)
  /\ (load env (Main.search_url skills location
                  (Main.experience_level_of years)) = Py.Raise e ->
      Main.scrape_linkedin_jobs env skills location (Some years) max_jobs
      = Py.Ok [])
  /\ (load env (LinkedinScraper.search_url skills location experience_years)
      = Py.Raise e ->
      LinkedinScraper.scrape_linkedin_jobs env skills location max_jobs
        experience_years = []).
Proof.
  intros Hc. split; [|split].
  - unfold Main.scrape_linkedin_jobs. rewrite Hc. by eexists.
  - intros Hl. unfold Main.scrape_linkedin_jobs, Main.scrape_body.
    rewrite Hc. simpl. rewrite Hl. simpl. by rewrite slice_to_nil.
  - intros Hl. unfold LinkedinScraper.scrape_linkedin_jobs.
    by rewrite Hc, Hl.
Qed.

Lemma X9_witness :
  Main.scrape_linkedin_jobs
    {| chrome := None; load := fun _ => Py.Raise Py.WebDriverException |}
    ["Python"] "India" (Some 3%Z) 10 = Py.Ok [].
Proof.
  apply (X9_navigation_failure_gives_no_jobs
           {| chrome := None; load := fun _ => Py.Raise Py.WebDriverException |}
           ["Python"] "India" 3 10 None Py.WebDriverException eq_refl).
  reflexivity.
Defined.

End Returned.

(** ** The categoriser, once more *)

Section CategorizeMore.
Import LinkedinScraper Spec.

Lemma has_email_iff (j : job) :
  has_email j <-> exists c s, hr_email j = Some (String c s).
Proof.
  unfold has_email. destruct (hr_email j) as [[|c s]|]; simpl.
  - split; [done|]. by intros (? & ? & ?).
  - split; [by eauto|done].
  - split; [done|]. by intros (? & ? & ?).
Qed.

(** X11.  A job is a direct contact job exactly when its [hr_email] is a
    string of at least one character; a job whose [hr_email] is [None] or
    the empty string is a standard job.  Categorising two lists one after
    the other gives the two results one after the other. *)
Theorem X11_direct_contact_means_non_empty_email (jobs more : list job)
    (j : job) :
  (j ∈ direct_contact_jobs (categorize_jobs jobs)
   <-> j ∈ jobs /\ exists c s, hr_email j = Some (String c s))
  /\ (j ∈ standard_jobs (categorize_jobs jobs)
      <-> j ∈ jobs /\ (hr_email j = None \/ hr_email j = Some ""))
  /\ direct_contact_jobs (categorize_jobs (jobs ++ more))
     = (direct_contact_jobs (categorize_jobs jobs)
        ++ direct_contact_jobs (categorize_jobs more))%list
  /\ standard_jobs (categorize_jobs (jobs ++ more))
     = (standard_jobs (categorize_jobs jobs)
        ++ standard_jobs (categorize_jobs more))%list.
Proof.
  destruct (categorize_jobs_filter jobs) as [Hd Hs].
  destruct (categorize_jobs_filter more) as [Hd' Hs'].
  destruct (categorize_jobs_filter (jobs ++ more)) as [Hd'' Hs''].
  rewrite Hd, Hs, Hd', Hs', Hd'', Hs'', !filter_app, !list_elem_of_filter.
  rewrite has_email_iff.
  split; [tauto|]. split; [|done].
  split.
  - intros [Hn Hj]. split; [done|].
    destruct (hr_email j) as [[|c s]|]; [by right| |by left].
    exfalso. apply Hn. by exists c, s.
  - intros [Hj Hn]. split; [|done].
    intros (c & s & E). destruct Hn as [Hn|Hn]; congruence.
Qed.

End CategorizeMore.

(** ** The skills column (main.py) *)

Section SkillsColumn.
Import Py.

Lemma prefix_cons (a c : ascii) (n s : string) :
  String.prefix (String a n) (String c s)
  = if ascii_dec a c then String.prefix n s else false.
Proof. reflexivity. Qed.

Lemma no_separator_at (c : ascii) (x rest : string) :
  contains ", " (String c x) = false ->
  String.prefix ", " (String c x ++ ", " ++ rest) = false.
Proof.
  rewrite contains_cons, orb_false_iff. intros [H _].
  rewrite append_cons. rewrite prefix_cons in *.
  destruct (ascii_dec "," c) as [<-|]; [|done].
  destruct x as [|d x].
  - reflexivity.
  - rewrite append_cons. rewrite prefix_cons in *.
    destruct (ascii_dec " " d); [|done]. by destruct x.
Qed.

Lemma split_piece (x rest : string) :
  contains ", " x = false ->
  split ", " (x ++ ", " ++ rest) = x :: split ", " rest.
Proof.
  unfold split. induction x as [|c x IH]; intros H.
  - change ("" ++ ", " ++ rest) with (String "," (String " " rest)).
    change (split_from ", " 0 (String "," (String " " rest)))
      with (if String.prefix ", " (", " ++ rest)
            then "" :: split_from ", " 0 rest
            else match split_from ", " 0 (String " " rest) with
                 | piece :: pieces => String "," piece :: pieces
                 | [] => [String "," ""]
                 end).
    by rewrite prefix_append.
  - pose proof (no_separator_at c x rest H) as Hp.
    rewrite contains_cons, orb_false_iff in H. destruct H as [_ H].
    rewrite (append_cons c x (", " ++ rest)) in *.
    change (split_from ", " 0 (String c (x ++ ", " ++ rest)))
      with (if String.prefix ", " (String c (x ++ ", " ++ rest))
            then "" :: split_from ", " 1 (x ++ ", " ++ rest)
            else match split_from ", " 0 (x ++ ", " ++ rest) with
                 | piece :: pieces => String c piece :: pieces
                 | [] => [String c ""]
                 end).
    by rewrite Hp, IH.
Qed.

Lemma split_last (x : string) :
  contains ", " x = false -> split ", " x = [x].
Proof.
  unfold split. induction x as [|c x IH]; intros H; [done|].
  rewrite contains_cons, orb_false_iff in H. destruct H as [Hp H].
  change (split_from ", " 0 (String c x))
    with (if String.prefix ", " (String c x)
          then "" :: split_from ", " 1 x
          else match split_from ", " 0 x with
               | piece :: pieces => String c piece :: pieces
               | [] => [String c ""]
               end).
  by rewrite Hp, IH.
Qed.

Lemma join_cons2 (sep x y : string) (l : list string) :
  join sep (x :: y :: l) = x ++ sep ++ join sep (y :: l).
Proof. reflexivity. Qed.

Lemma split_join (skills : list string) :
  skills <> [] ->
  Forall (fun x => contains ", " x = false) skills ->
  split ", " (join ", " skills) = skills.
Proof.
  intros Hne H. induction H as [|x l Hx Hl IH]; [done|].
  destruct l as [|y l].
  - by apply split_last.
  - rewrite join_cons2, split_piece by done. by rewrite IH.
Qed.

(** X12.  The skills survive the columns of the table: what
    /upload-resume writes into [skills] is read back by
    /resume/{user_email} as the same list, as long as no skill contains
    ", " and the list is not the single empty skill. *)
Theorem X12_skills_read_back (skills : list string) :
  Forall (fun x => contains ", " x = false) skills ->
  skills <> [""] ->
  Api.listed_skills (Some (Api.stored_skills skills)) = skills.
Proof.
  intros H Hne. unfold Api.stored_skills.
  destruct skills as [|x l]; [done|].
  pose proof (split_join (x :: l) ltac:(done) H) as E.
  destruct (join ", " (x :: l)) as [|c s] eqn:Ej; [|exact E].
  destruct l as [|y l].
  - simpl in Ej. by subst x.
  - rewrite join_cons2 in Ej. by destruct x.
Qed.

Lemma X12_witness :
  Api.listed_skills
    (Some (Api.stored_skills ["Python"; "Machine Learning"; "C++"]))
  = ["Python"; "Machine Learning"; "C++"].
Proof.
  apply X12_skills_read_back; [repeat constructor | discriminate].
Defined.

End SkillsColumn.

(** ** Signing in (auth.py) *)

Section SignIn.
Import Auth.

(** X14.  [get_current_user] lets a request through only when the token
    was verified, its issuer is one of the two names of Google and it
    carries an e-mail and a subject, and the user it returns has that
    e-mail and that subject; every other request is answered 401, never
    with another status. *)
Theorem X14_only_google_tokens_pass (verify : string -> verification)
    (token : string) :
  (forall u,
      get_current_user verify token = User u <->
      exists idinfo iss,
        verify token = Verified idinfo
        /\ idinfo !! "iss" = Some iss
        /\ (iss = "accounts.google.com"
            \/ iss = "https://accounts.google.com")
        /\ idinfo !! "email" = Some (email u)
        /\ idinfo !! "sub" = Some (google_id u)
        /\ name u = idinfo !! "name"
        /\ picture u = idinfo !! "picture")
  /\ (forall status_code detail,
        get_current_user verify token = HTTPException status_code detail ->
        status_code = 401%Z).
Proof.
  unfold get_current_user, check_claims. split.
  - intros u. destruct (verify token) as [idinfo|message|].
    + destruct (idinfo !! "iss") as [iss|] eqn:Ei.
      * case_bool_decide as Hiss.
        -- rewrite !elem_of_cons, elem_of_nil in Hiss.
           destruct (idinfo !! "email") as [e|] eqn:Ee,
                    (idinfo !! "sub") as [sub|] eqn:Es;
             (split; [intros [= <-]
                     |intros (i' & iss' & [= <-] & ? & ? & ? & ? & ? & ?)]);
             try congruence.
           ++ exists idinfo, iss. simpl. repeat split; try done. tauto.
           ++ destruct u; simpl in *. f_equal; congruence.
        -- split; [done|].
           intros (i' & iss' & [= <-] & E & Hor & _).
           exfalso. apply Hiss. rewrite Ei in E. injection E as <-.
           rewrite !elem_of_cons. tauto.
      * split; [done|]. intros (i' & iss' & [= <-] & E & _). congruence.
    + split; [done|]. by intros (? & ? & ? & _).
    + split; [done|]. by intros (? & ? & ? & _).
  - intros status_code detail.
    destruct (verify token) as [idinfo|message|];
      [|by intros [= <- _]|by intros [= <- _]].
    destruct (idinfo !! "iss") as [iss|]; [|by intros [= <- _]].
    case_bool_decide; [|by intros [= <- _]].
    destruct (idinfo !! "email"), (idinfo !! "sub");
      (done || by intros [= <- _]).
Qed.

End SignIn.

(** ** The endpoints (main.py) *)

Section Endpoints.
Import Api.

Lemma filter_cons_length {A} (f : A -> bool) (x : A) (l : list A) :
  length (List.filter f (x :: l))
  = (if f x then 1 else 0) + length (List.filter f l).
Proof. simpl. by destruct (f x). Qed.

(** X13.  The three counts of the dashboard never count a job twice:
    their sum is at most the number of saved jobs, and it is that number
    exactly when every job has one of the five known statuses or none. *)
Theorem X13_dashboard_counts (jobs : list saved_job) :
  let s := count_stats jobs in
  ended s + running s + pending s <= totalApplications s
  /\ (ended s + running s + pending s = totalApplications s
      <-> Forall (fun j =>
                    status j ∈ [ Some "rejected"; Some "accepted";
                                 Some "applied"; Some "interviewing";
                                 Some "pending"; None ]) jobs).
Proof.
  unfold count_stats. simpl.
  induction jobs as [|j jobs [IH1 IH2]].
  - split; [done|]. split; [constructor|done].
  - rewrite !filter_cons_length. simpl length.
    assert (Hj :
      (if status_in [Some "rejected"; Some "accepted"] j then 1 else 0)
      + (if status_in [Some "applied"; Some "interviewing"] j then 1 else 0)
      + (if status_in [Some "pending"; None] j then 1 else 0) <= 1
      /\ ((if status_in [Some "rejected"; Some "accepted"] j then 1 else 0)
          + (if status_in [Some "applied"; Some "interviewing"] j
             then 1 else 0)
          + (if status_in [Some "pending"; None] j then 1 else 0) = 1
          <-> status j ∈ [ Some "rejected"; Some "accepted";
                           Some "applied"; Some "interviewing";
                           Some "pending"; None ])).
    { unfold status_in. simpl. rewrite !elem_of_cons, elem_of_nil.
      repeat case_bool_decide; simpl; try congruence;
        (split; [lia|]);
        (split; [intros ?; (tauto || (exfalso; lia))
                |intros ?; (lia || (exfalso; tauto))]). }
    destruct Hj as [Hj1 Hj2]. split; [lia|].
    rewrite Forall_cons, <- IH2, <- Hj2. lia.
Qed.

(** X15.  The endpoints that raise 404 for an unknown user inside their
    [try] never answer 404: the handler [except Exception] turns it into
    500, as it does when a saved job is not found.  /resume/{user_email},
    which re-raises [HTTPException] first, answers 404 exactly when the
    user or the resume is missing, and the dashboard answers zero counts
    for an unknown user. *)
Theorem X15_not_found_becomes_500 (db : database) (env : Dom.browser)
    (user_email : string) (job : SavedJobCreate) (id : Z)
    (user_update : UserUpdate) (skills : list string) (location : string)
    (experience_years max_jobs : Z) :
  (save_job db user_email job).2 <> HTTPException 404
  /\ get_saved_jobs db user_email <> HTTPException 404
  /\ (delete_saved_job db user_email id).2 <> HTTPException 404
  /\ (update_user db user_email user_update).2 <> HTTPException 404
  /\ search_jobs db env user_email skills location experience_years max_jobs
     <> HTTPException 404
  /\ (user_by_email db user_email = None ->
      save_job db user_email job = (db, HTTPException 500)
      /\ get_saved_jobs db user_email = HTTPException 500
      /\ delete_saved_job db user_email id = (db, HTTPException 500)
      /\ update_user db user_email user_update = (db, HTTPException 500)
      /\ search_jobs db env user_email skills location experience_years
           max_jobs = HTTPException 500
      /\ get_dashboard_stats db user_email
         = Returned {| totalApplications := 0; ended := 0;
                       running := 0; pending := 0 |})
  /\ (get_resume db user_email = HTTPException 404
      <-> user_by_email db user_email = None
          \/ exists u, user_by_email db user_email = Some u
                       /\ List.find
                            (fun r => Z.eqb (resume_user_id r) (user_id u))
                            (resumes db) = None).
Proof.
  unfold save_job, get_saved_jobs, delete_saved_job, update_user,
    search_jobs, get_dashboard_stats, get_resume.
  destruct (user_by_email db user_email) as [u|] eqn:Eu.
  - repeat split; try done.
    + by destruct (List.find _ (saved_jobs db)).
    + by destruct (List.find _ (saved_jobs db)).
    + destruct (Main.scrape_linkedin_jobs _ _ _ _ _) as [jobs|e]; [|done].
      by destruct (separate jobs [] []).
    + destruct (List.find _ (resumes db)) eqn:Er; [done|].
      intros _. right. by exists u.
    + intros [H|(u' & [= <-] & Hr)]; [done|]. by rewrite Hr.
  - repeat split; try done. intros _. by left.
Qed.

Lemma X15_witness :
  save_job {| users := []; resumes := []; saved_jobs := [] |}
    "nobody@example.com"
    {| new_title := "Engineer"; new_company := "Acme";
       new_location := "Pune"; new_link := "https://example.com/1";
       new_hr_email := None |}
  = ({| users := []; resumes := []; saved_jobs := [] |}, HTTPException 500).
Proof.
  apply (X15_not_found_becomes_500
           {| users := []; resumes := []; saved_jobs := [] |}
           Demo.no_chrome "nobody@example.com"
           {| new_title := "Engineer"; new_company := "Acme";
              new_location := "Pune"; new_link := "https://example.com/1";
              new_hr_email := None |}
           1 {| update_name := None; update_phone := None;
                update_linkedin := None |} [] "India" 0 10).
  reflexivity.
Defined.

End Endpoints.

(** ** Saved jobs and the profile (main.py) *)

Section SavedJobs.
Import Api.

Lemma find_app {A} (f : A -> bool) (l1 l2 : list A) :
  List.find f (l1 ++ l2)
  = match List.find f l1 with
    | Some x => Some x
    | None => List.find f l2
    end.
Proof.
  induction l1 as [|x l1 IH]; [done|]. simpl. by destruct (f x).
Qed.

Lemma find_elem {A} (f : A -> bool) (l : list A) (x : A) :
  List.find f l = Some x -> x ∈ l /\ f x = true.
Proof. intros [H1 H2]%find_some. split; [by apply list_elem_of_In|done]. Qed.

Lemma find_None_elem {A} (f : A -> bool) (l : list A) (x : A) :
  List.find f l = None -> x ∈ l -> f x = false.
Proof. intros H Hx. eapply find_none; [exact H|]. by apply list_elem_of_In. Qed.

Lemma next_id_fresh (ids : list Z) (i : Z) :
  i ∈ ids -> (i < next_id ids)%Z.
Proof.
  unfold next_id. induction ids as [|x ids IH]; simpl.
  - by intros ?%elem_of_nil.
  - intros [->|H]%elem_of_cons; [lia|]. specialize (IH H). lia.
Qed.

Lemma NoDup_fmap_inj {A B} (f : A -> B) (l : list A) (x y : A) :
  NoDup (f <$> l) -> x ∈ l -> y ∈ l -> f x = f y -> x = y.
Proof.
  induction l as [|z l IH]; [by intros _ ?%elem_of_nil|].
  rewrite fmap_cons, NoDup_cons. intros [Hz Hl].
  intros [->|Hx]%elem_of_cons [->|Hy]%elem_of_cons E; try done.
  - exfalso. apply Hz. rewrite E. by apply list_elem_of_fmap_2.
  - exfalso. apply Hz. rewrite <- E. by apply list_elem_of_fmap_2.
  - by apply IH.
Qed.

(** X16.  Saving a job is idempotent: for a known user, a second
    [save_job] with the same link adds nothing and answers "already
    saved" with the id that the first call answered.  A call never
    touches the users nor the rows that were there, keeps the ids of the
    saved jobs distinct, and keeps at most one row per user and link. *)
Theorem X16_saving_twice_saves_once (db : database) (user_email : string)
    (job again : SavedJobCreate) :
  is_Some (user_by_email db user_email) ->
  new_link again = new_link job ->
  let after := save_job db user_email job in
  (exists id,
      (after.2 = Returned (AlreadySaved id)
       \/ exists t c l, after.2 = Returned (Saved id t c l))
      /\ save_job after.1 user_email again
         = (after.1, Returned (AlreadySaved id)))
  /\ users after.1 = users db
  /\ saved_jobs db `prefix_of` saved_jobs after.1
  /\ (NoDup (job_id <$> saved_jobs db) ->
      NoDup (job_id <$> saved_jobs after.1))
  /\ (NoDup ((fun j => (job_user_id j, link j)) <$> saved_jobs db) ->
      NoDup ((fun j => (job_user_id j, link j)) <$> saved_jobs after.1)).
Proof.
  intros [u Hu] Hlink after. subst after. unfold save_job. rewrite Hu.
  destruct (List.find _ (saved_jobs db)) as [existing|] eqn:Ef; simpl.
  - split; [|done].
    exists (job_id existing). split; [by left|].
    unfold save_job. by rewrite Hu, Hlink, Ef.
  - split; [|split; [done|split; [by apply prefix_app_r|split]]].
    + eexists. split; [right; by eexists _, _, _|].
      unfold save_job. simpl. unfold user_by_email in *. simpl. rewrite Hu.
      rewrite Hlink, find_app, Ef. simpl.
      by rewrite Z.eqb_refl, String.eqb_refl.
    + intros Hnd. rewrite fmap_app. apply NoDup_app. split; [done|].
      split; [|apply NoDup_singleton].
      intros i Hi [->|?%elem_of_nil]%elem_of_cons; [|done].
      apply next_id_fresh in Hi. simpl in Hi. lia.
    + intros Hnd. rewrite fmap_app. apply NoDup_app. split; [done|].
      split; [|apply NoDup_singleton].
      intros k Hk Hin. apply list_elem_of_fmap in Hk as (j & -> & Hj).
      apply elem_of_cons in Hin as [E|?%elem_of_nil]; [|done].
      simpl in E. injection E as E1 E2.
      pose proof (find_None_elem _ _ j Ef Hj) as Hf. simpl in Hf.
      rewrite E1, E2, Z.eqb_refl, String.eqb_refl in Hf. done.
Qed.

Lemma X16_witness :
  exists id,
    save_job
      (save_job
         {| users := [ {| user_id := 1; email := "jane@doe.com";
                          name := None; phone := None; linkedin := None;
                          profile_picture := None |} ];
            resumes := []; saved_jobs := [] |}
         "jane@doe.com"
         {| new_title := "Engineer"; new_company := "Acme";
            new_location := "Pune"; new_link := "https://example.com/1";
            new_hr_email := None |}).1
      "jane@doe.com"
      {| new_title := "Engineer II"; new_company := "Acme";
         new_location := "Pune"; new_link := "https://example.com/1";
         new_hr_email := None |}
    = ((save_job
          {| users := [ {| user_id := 1; email := "jane@doe.com";
                           name := None; phone := None; linkedin := None;
                           profile_picture := None |} ];
             resumes := []; saved_jobs := [] |}
          "jane@doe.com"
          {| new_title := "Engineer"; new_company := "Acme";
             new_location := "Pune"; new_link := "https://example.com/1";
             new_hr_email := None |}).1,
       Returned (AlreadySaved id)).
Proof.
  destruct (X16_saving_twice_saves_once
              {| users := [ {| user_id := 1; email := "jane@doe.com";
                               name := None; phone := None; linkedin := None;
                               profile_picture := None |} ];
                 resumes := []; saved_jobs := [] |}
              "jane@doe.com"
              {| new_title := "Engineer"; new_company := "Acme";
                 new_location := "Pune"; new_link := "https://example.com/1";
                 new_hr_email := None |}
              {| new_title := "Engineer II"; new_company := "Acme";
                 new_location := "Pune"; new_link := "https://example.com/1";
                 new_hr_email := None |})
    as [(id & _ & H) _].
  - by eexists.
  - reflexivity.
  - by exists id.
Defined.

(** X17.  [delete_saved_job] removes a job of the caller or nothing: when
    the ids of the saved jobs are distinct, either the call answers 500
    and the database is as it was, or it removes exactly one row, which
    has the given id and belongs to the caller, and leaves every other
    row and every user in place. *)
Theorem X17_delete_removes_only_an_own_job (db : database)
    (user_email : string) (id : Z) :
  NoDup (job_id <$> saved_jobs db) ->
  let after := delete_saved_job db user_email id in
  (after = (db, HTTPException 500)
   /\ forall u j, user_by_email db user_email = Some u ->
                  j ∈ saved_jobs db -> job_id j = id ->
                  job_user_id j <> user_id u)
  \/ (exists u j,
         user_by_email db user_email = Some u
         /\ j ∈ saved_jobs db /\ job_id j = id
         /\ job_user_id j = user_id u
         /\ after.2 = Returned id
         /\ users after.1 = users db
         /\ resumes after.1 = resumes db
         /\ forall j', j' ∈ saved_jobs after.1
                       <-> j' ∈ saved_jobs db /\ j' <> j).
Proof.
  intros Hnd after. subst after. unfold delete_saved_job.
  destruct (user_by_email db user_email) as [u|] eqn:Hu; [|by left].
  destruct (List.find _ (saved_jobs db)) as [j|] eqn:Ef.
  - right. apply find_elem in Ef as [Hj Hf].
    apply andb_true_iff in Hf as [H1%Z.eqb_eq H2%Z.eqb_eq].
    exists u, j. do 7 (split; [done|]). simpl. intros j'. split.
    + intros Hj'%list_elem_of_In%filter_In. destruct Hj' as [Hin Hne].
      split; [by apply list_elem_of_In|].
      intros ->. by rewrite Z.eqb_refl in Hne.
    + intros [Hin Hne]. apply list_elem_of_In, filter_In.
      split; [by apply list_elem_of_In|].
      apply negb_true_iff, Z.eqb_neq. intros E. apply Hne.
      by eapply (NoDup_fmap_inj job_id).
  - left. split; [done|]. intros u' j [= <-] Hj Hid Hown.
    pose proof (find_None_elem _ _ j Ef Hj) as Hf. simpl in Hf.
    rewrite Hid, Hown, !Z.eqb_refl in Hf. done.
Qed.

Lemma X17_witness :
  delete_saved_job
    {| users := [ {| user_id := 1; email := "jane@doe.com"; name := None;
                     phone := None; linkedin := None;
                     profile_picture := None |} ];
       resumes := [];
       saved_jobs := [ {| job_id := 7; job_user_id := 2; title := "Engineer";
                          company := "Acme"; location := None;
                          link := "https://example.com/1"; hr_email := None;
                          status := Some "pending" |} ] |}
    "jane@doe.com" 7
  = ({| users := [ {| user_id := 1; email := "jane@doe.com"; name := None;
                      phone := None; linkedin := None;
                      profile_picture := None |} ];
        resumes := [];
        saved_jobs := [ {| job_id := 7; job_user_id := 2; title := "Engineer";
                           company := "Acme"; location := None;
                           link := "https://example.com/1"; hr_email := None;
                           status := Some "pending" |} ] |},
     HTTPException 500).
Proof.
  destruct (X17_delete_removes_only_an_own_job
              {| users := [ {| user_id := 1; email := "jane@doe.com";
                               name := None; phone := None; linkedin := None;
                               profile_picture := None |} ];
                 resumes := [];
                 saved_jobs := [ {| job_id := 7; job_user_id := 2;
                                    title := "Engineer"; company := "Acme";
                                    location := None;
                                    link := "https://example.com/1";
                                    hr_email := None;
                                    status := Some "pending" |} ] |}
              "jane@doe.com" 7) as [[H _]|(u & j & _ & _ & _ & _ & H & _)].
  - simpl. apply NoDup_singleton.
  - exact H.
  - discriminate H.
Defined.

(** X18.  [update_user] cannot empty a field: a name, phone or LinkedIn
    address is replaced when the request carries a string of at least one
    character and is left as it was otherwise, so a field that holds a
    value still holds one afterwards; the e-mail and the id never change,
    and no user is added or removed. *)
Theorem X18_update_never_empties_a_field (db : database)
    (user_email : string) (user_update : UserUpdate) (u : user) :
  user_by_email db user_email = Some u ->
  exists db' u',
    update_user db user_email user_update = (db', Returned u')
    /\ email u' = email u /\ user_id u' = user_id u
    /\ name u' = (if Py.truthy (update_name user_update)
                  then update_name user_update else name u)
    /\ phone u' = (if Py.truthy (update_phone user_update)
                   then update_phone user_update else phone u)
    /\ linkedin u' = (if Py.truthy (update_linkedin user_update)
                      then update_linkedin user_update else linkedin u)
    /\ (Py.truthy (name u) = true -> Py.truthy (name u') = true)
    /\ (Py.truthy (phone u) = true -> Py.truthy (phone u') = true)
    /\ (Py.truthy (linkedin u) = true -> Py.truthy (linkedin u') = true)
    /\ length (users db') = length (users db)
    /\ saved_jobs db' = saved_jobs db.
Proof.
  intros Hu. unfold update_user. rewrite Hu.
  eexists _, _. split; [reflexivity|]. simpl.
  repeat split.
  - by destruct (Py.truthy (update_name user_update)) eqn:E.
  - by destruct (Py.truthy (update_phone user_update)) eqn:E.
  - by destruct (Py.truthy (update_linkedin user_update)) eqn:E.
  - by rewrite length_fmap.
Qed.

Lemma X18_witness :
  exists db' u',
    update_user
      {| users := [ {| user_id := 1; email := "jane@doe.com";
                       name := Some "Jane"; phone := None; linkedin := None;
                       profile_picture := None |} ];
         resumes := []; saved_jobs := [] |}
      "jane@doe.com"
      {| update_name := Some ""; update_phone := Some "9876543210";
         update_linkedin := None |}
    = (db', Returned u')
    /\ name u' = Some "Jane".
Proof.
  destruct (X18_update_never_empties_a_field
              {| users := [ {| user_id := 1; email := "jane@doe.com";
                               name := Some "Jane"; phone := None;
                               linkedin := None; profile_picture := None |} ];
                 resumes := []; saved_jobs := [] |}
              "jane@doe.com"
              {| update_name := Some ""; update_phone := Some "9876543210";
                 update_linkedin := None |}
              {| user_id := 1; email := "jane@doe.com";
                 name := Some "Jane"; phone := None; linkedin := None;
                 profile_picture := None |} eq_refl)
    as (db' & u' & H & _ & _ & Hn & _).
  exists db', u'. split; [exact H | exact Hn].
Defined.

End SavedJobs.

(** ** Searching and listing (main.py) *)

Section Listing.
Import Api.

Lemma separate_all (jobs with_email without_email : list Main.job) :
  separate jobs with_email without_email
  = (with_email, (without_email ++ jobs)%list).
Proof.
  revert without_email. induction jobs as [|j jobs IH]; intros b; simpl.
  - by rewrite app_nil_r.
  - by rewrite IH, <- app_assoc.
Qed.

Lemma main_scrape_length (env : Dom.browser) (skills : list string)
    (location : string) (experience_years : option Z) (max_jobs : Z)
    (jobs : list Main.job) :
  Main.scrape_linkedin_jobs env skills location experience_years max_jobs
  = Py.Ok jobs ->
  (0 <= max_jobs)%Z -> length jobs <= Z.to_nat max_jobs.
Proof.
  unfold Main.scrape_linkedin_jobs. destruct (Dom.chrome env); [done|].
  intros [= <-] H. rewrite slice_to_nonneg by done.
  rewrite length_take. lia.
Qed.

(** X19.  /search-jobs never reports a job with an e-mail: the jobs that
    main.py scrapes carry no [hr_email], so all of them, in their order,
    are the jobs without e-mail and [total_jobs] is their number, at most
    [max_jobs] when that is not negative.  When the browser does not
    start, or the user is unknown, the answer is 500. *)
Theorem X19_search_reports_no_email (db : database) (env : Dom.browser)
    (user_email : string) (skills : list string) (location : string)
    (experience_years max_jobs : Z) :
  (forall r,
      search_jobs db env user_email skills location experience_years max_jobs
      = Returned r ->
      jobs_with_email r = []
      /\ Main.scrape_linkedin_jobs env skills location
           (Some experience_years) max_jobs = Py.Ok (jobs_without_email r)
      /\ total_jobs r = length (jobs_without_email r)
      /\ ((0 <= max_jobs)%Z -> total_jobs r <= Z.to_nat max_jobs))
  /\ (forall status_code,
        search_jobs db env user_email skills location experience_years
          max_jobs = HTTPException status_code ->
        status_code = 500%Z
        /\ (user_by_email db user_email = None
            \/ exists e, Dom.chrome env = Some e))
  /\ (forall e, Dom.chrome env = Some e ->
        search_jobs db env user_email skills location experience_years
          max_jobs = HTTPException 500).
Proof.
  unfold search_jobs. split; [|split].
  - intros r. destruct (user_by_email db user_email); [|done].
    destruct (Main.scrape_linkedin_jobs _ _ _ _ _) as [jobs|e] eqn:E; [|done].
    rewrite separate_all. simpl. intros [= <-]. simpl.
    repeat split; try done. intros H. by eapply main_scrape_length.
  - intros status_code. destruct (user_by_email db user_email).
    + destruct (Main.scrape_linkedin_jobs _ _ _ _ _) as [jobs|e] eqn:E.
      * by rewrite separate_all.
      * intros [= <-]. split; [done|]. right.
        unfold Main.scrape_linkedin_jobs in E.
        destruct (Dom.chrome env) as [e'|]; [by exists e'|done].
    + intros [= <-]. split; [done|]. by left.
  - intros e He. destruct (user_by_email db user_email); [|done].
    unfold Main.scrape_linkedin_jobs. by rewrite He.
Qed.

Lemma X19_witness :
  search_jobs
    {| users := [ {| user_id := 1; email := "jane@doe.com"; name := None;
                     phone := None; linkedin := None;
                     profile_picture := None |} ];
       resumes := []; saved_jobs := [] |}
    Demo.no_chrome "jane@doe.com" ["Python"] "India" 0 10
  = HTTPException 500.
Proof.
  destruct (X19_search_reports_no_email
              {| users := [ {| user_id := 1; email := "jane@doe.com";
                               name := None; phone := None; linkedin := None;
                               profile_picture := None |} ];
                 resumes := []; saved_jobs := [] |}
              Demo.no_chrome "jane@doe.com" ["Python"] "India" 0 10)
    as (_ & _ & H).
  apply (H Py.WebDriverException). reflexivity.
Defined.

(** X20.  /saved-jobs/me lists the jobs of the caller and no other: one
    entry per saved job of the caller, in the order of the table, with
    [total_saved] their number; and the status of an entry is never
    empty, a job without status being shown as "pending". *)
Theorem X20_saved_jobs_of_the_caller (db : database) (user_email : string)
    (u : user) :
  user_by_email db user_email = Some u ->
  exists jobs,
    get_saved_jobs db user_email = Returned (length jobs, jobs)
    /\ listed_id <$> jobs
       = job_id <$> List.filter
                      (fun j => Z.eqb (job_user_id j) (user_id u))
                      (saved_jobs db)
    /\ (forall j, j ∈ saved_jobs db -> job_user_id j = user_id u ->
                  job_id j ∈ listed_id <$> jobs)
    /\ (forall lj, lj ∈ jobs ->
          Py.truthy (listed_status lj) = true
          /\ exists j, j ∈ saved_jobs db /\ job_user_id j = user_id u
                       /\ listed_id lj = job_id j
                       /\ listed_url lj = link j
                       /\ (Py.truthy (status j) = true ->
                           listed_status lj = status j)
                       /\ (Py.truthy (status j) = false ->
                           listed_status lj = Some "pending")).
Proof.
  intros Hu. unfold get_saved_jobs. rewrite Hu. simpl.
  set (own := List.filter (fun j => Z.eqb (job_user_id j) (user_id u))
                          (saved_jobs db)).
  set (entry := fun j : saved_job =>
                  {| listed_id := job_id j;
                     listed_title := title j;
                     listed_company := company j;
                     listed_location := location j;
                     listed_url := link j;
                     listed_hr_email := hr_email j;
                     listed_status := or_else (status j) (Some "pending") |}).
  exists (entry <$> own). split; [by rewrite length_fmap|].
  assert (Hids : listed_id <$> (entry <$> own) = job_id <$> own).
  { rewrite <- list_fmap_compose. by apply list_fmap_ext. }
  split; [exact Hids|split].
  - intros j Hj Hown. rewrite Hids.
    apply list_elem_of_fmap. exists j. split; [done|]. subst own.
    apply list_elem_of_In, filter_In.
    split; [by apply list_elem_of_In|]. by apply Z.eqb_eq.
  - intros lj (j & -> & Hj)%list_elem_of_fmap. simpl.
    apply list_elem_of_In, filter_In in Hj as [Hj Hown].
    apply list_elem_of_In in Hj. apply Z.eqb_eq in Hown.
    unfold or_else. split.
    + by destruct (Py.truthy (status j)) eqn:E.
    + exists j. repeat split; try done.
      * intros E. by rewrite E.
      * intros E. by rewrite E.
Qed.

Lemma X20_witness :
  exists jobs,
    get_saved_jobs
      {| users := [ {| user_id := 1; email := "jane@doe.com"; name := None;
                       phone := None; linkedin := None;
                       profile_picture := None |} ];
         resumes := [];
         saved_jobs := [ {| job_id := 7; job_user_id := 2; title := "Engineer";
                            company := "Acme"; location := None;
                            link := "https://example.com/1";
                            hr_email := None; status := Some "applied" |};
                         {| job_id := 8; job_user_id := 1; title := "Analyst";
                            company := "Acme"; location := None;
                            link := "https://example.com/2";
                            hr_email := None; status := None |} ] |}
      "jane@doe.com"
    = Returned (length jobs, jobs)
    /\ listed_id <$> jobs = [8%Z].
Proof.
  destruct (X20_saved_jobs_of_the_caller
              {| users := [ {| user_id := 1; email := "jane@doe.com";
                               name := None; phone := None; linkedin := None;
                               profile_picture := None |} ];
                 resumes := [];
                 saved_jobs := [ {| job_id := 7; job_user_id := 2;
                                    title := "Engineer"; company := "Acme";
                                    location := None;
                                    link := "https://example.com/1";
                                    hr_email := None;
                                    status := Some "applied" |};
                                 {| job_id := 8; job_user_id := 1;
                                    title := "Analyst"; company := "Acme";
                                    location := None;
                                    link := "https://example.com/2";
                                    hr_email := None; status := None |} ] |}
              "jane@doe.com"
              {| user_id := 1; email := "jane@doe.com"; name := None;
                 phone := None; linkedin := None; profile_picture := None |}
              eq_refl) as (jobs & H1 & H2 & _).
  exists jobs. split; [exact H1 | exact H2].
Defined.

End Listing.

(** ** The fields of a listing (main.py) *)

Section Fields.
Import Dom Spec.

Lemma strip_trimmed (s : string) :
  (forall c r, Py.strip s = String c r -> Py.is_space c = false)
  /\ (forall b c, Py.strip s = b ++ String c "" -> Py.is_space c = false).
Proof.
  split.
  - intros c r H. unfold Py.strip in H.
    apply rstrip_head in H as [r' H]. by eapply lstrip_head.
  - intros b c H. by eapply rstrip_last.
Qed.

(** X10.  Every listing that [scrape_linkedin_jobs] of main.py returns
    comes from a card of the page that has a title, a company and a link
    with an [href]: its title and company are the texts of the card
    without white space at either end, its link is that [href], its
    location is the text of the card or, failing that, the location that
    was asked for, and its experience level is the one derived from the
    years of the request. *)
Theorem X10_fields_of_a_listing (env : browser) (skills : list string)
    (location : string) (years max_jobs : Z) (jobs : list Main.job)
    (j : Main.job) :
  Main.scrape_linkedin_jobs env skills location (Some years) max_jobs
  = Py.Ok jobs ->
  j ∈ jobs ->
  Main.experience_level j = Main.experience_level_of years
  /\ (forall c r, Main.title j = String c r -> Py.is_space c = false)
  /\ (forall b c, Main.title j = b ++ String c "" -> Py.is_space c = false)
  /\ (forall c r, Main.company j = String c r -> Py.is_space c = false)
  /\ (forall b c, Main.company j = b ++ String c "" -> Py.is_space c = false)
  /\ exists cards c t co l,
       load env (Main.search_url skills location
                   (Main.experience_level_of years)) = Py.Ok cards
       /\ c ∈ cards
       /\ title_elem c = Some t /\ Main.title j = Py.strip (text t)
       /\ company_elem c = Some co /\ Main.company j = Py.strip (text co)
       /\ link_elem c = Some l /\ href l = Some (Main.link j)
       /\ Main.location j = match location_elem c with
                            | Some e => Py.strip (text e)
                            | None => location
                            end.
Proof.
  unfold Main.scrape_linkedin_jobs, Main.scrape_body.
  destruct (chrome env); [done|]. simpl.
  destruct (load env _) as [cards|e] eqn:El; simpl.
  2:{ rewrite slice_to_nil. by intros [= <-] ?%elem_of_nil. }
  rewrite parse_cards_listings. simpl. intros [= <-] Hj.
  assert (Hin : j ∈ main_listings location (Main.experience_level_of years)
                     cards).
  { unfold Py.slice_to in Hj.
    destruct (0 <=? max_jobs)%Z, (0 <=? max_jobs * 2)%Z;
      apply subseteq_take in Hj;
      unfold main_listings in *;
      apply list_elem_of_omap in Hj as (c & Hc%subseteq_take & Hl);
      apply list_elem_of_omap; by exists c. }
  apply list_elem_of_omap in Hin as (c & Hc & Hl).
  assert (Hcomplete : main_complete c)
    by (eapply main_listing_is_Some; eauto).
  destruct Hcomplete as (t & co & l & h & Ht & Hco & Hlk & Hh).
  rewrite (main_listing_complete _ _ c t co l h) in Hl by done.
  injection Hl as <-. simpl.
  destruct (strip_trimmed (text t)) as [Ht1 Ht2].
  destruct (strip_trimmed (text co)) as [Hc1 Hc2].
  do 5 (split; [done|]).
  by exists cards, c, t, co, l.
Qed.

Lemma X10_witness :
  Main.experience_level
    {| Main.title := "Engineer 1"; Main.company := "Acme";
       Main.location := "India";
       Main.link := "https://www.linkedin.com/jobs/view/1";
       Main.experience_level := "Internship" |}
  = Main.experience_level_of 0.
Proof.
  apply (X10_fields_of_a_listing
           (Demo.showing [Demo.without_location (Demo.full_card "1")])
           ["Python"] "India" 0 10
           [ {| Main.title := "Engineer 1"; Main.company := "Acme";
                Main.location := "India";
                Main.link := "https://www.linkedin.com/jobs/view/1";
                Main.experience_level := "Internship" |} ]).
  - vm_compute. reflexivity.
  - apply elem_of_cons. by left.
Defined.

End Fields.

(** ** The answer of the model (main.py) *)

Section Fences.
Import Py Spec.

Lemma prefix_tick (n s : string) :
  String.prefix (String "`" n) s = true
  <-> exists s', s = String "`" s' /\ String.prefix n s' = true.
Proof.
  destruct s as [|c s]; [split; [done|by intros (? & ? & _)]|].
  rewrite prefix_cons. destruct (ascii_dec "`" c) as [<-|Hne].
  - split; [by exists s|]. by intros (s' & [= <-] & H).
  - split; [done|]. intros (s' & [= E _] & _). by subst c.
Qed.

Lemma ticks_succ (k : nat) (s : string) :
  S k <= ticks s <-> exists s', s = String "`" s' /\ k <= ticks s'.
Proof.
  destruct s as [|c s]; [split; [simpl; lia|by intros (? & ? & _)]|].
  simpl. destruct (is_char "`" c) eqn:E.
  - apply is_char_eq in E as <-. split.
    + intros H. exists s. split; [done|lia].
    + intros (s' & [= <-] & H). lia.
  - split; [lia|]. intros (s' & [= -> _] & _).
    by rewrite (proj2 (is_char_eq "`" "`")) in E.
Qed.

Lemma ticks_prefix (s : string) :
  String.prefix "```" s = true <-> 3 <= ticks s.
Proof.
  rewrite prefix_tick, ticks_succ. split.
  - intros (s1 & -> & H). exists s1. split; [done|].
    apply prefix_tick in H as (s2 & -> & H). apply ticks_succ.
    exists s2. split; [done|].
    apply prefix_tick in H as (s3 & -> & H). apply ticks_succ.
    exists s3. split; [done|lia].
  - intros (s1 & -> & H). exists s1. split; [done|].
    apply ticks_succ in H as (s2 & -> & H). apply prefix_tick.
    exists s2. split; [done|].
    apply ticks_succ in H as (s3 & -> & H). apply prefix_tick.
    exists s3. split; [done|]. by destruct s3.
Qed.

Lemma replace_from_step (old new : string) (c : ascii) (s : string) :
  replace_from old new 0 (String c s)
  = if String.prefix old (String c s)
    then new ++ replace_from old new (pred (String.length old)) s
    else String c (replace_from old new 0 s).
Proof. reflexivity. Qed.

(** Fewer than three backticks at the start are left where they are. *)
Lemma ticks_kept (s : string) :
  ticks s < 3 -> ticks (replace_from "```" "" 0 s) = ticks s.
Proof.
  revert s. fix IH 1. intros [|c s] H; [done|].
  rewrite replace_from_step.
  destruct (String.prefix "```" (String c s)) eqn:E.
  - apply ticks_prefix in E. lia.
  - simpl in *. destruct (is_char "`" c); [|done].
    rewrite IH; [done|lia].
Qed.

Lemma no_fence_left (skip : nat) (s : string) :
  contains "```" (replace_from "```" "" skip s) = false.
Proof.
  revert skip. induction s as [|c s IH]; intros skip; [done|].
  destruct skip as [|skip]; [|apply IH].
  rewrite replace_from_step.
  destruct (String.prefix "```" (String c s)) eqn:E; [apply IH|].
  rewrite contains_cons, IH, orb_false_r.
  destruct (String.prefix "```" (String c (replace_from "```" "" 0 s)))
    eqn:E'; [|done].
  apply ticks_prefix in E'.
  assert (Hs : ticks (String c s) < 3).
  { destruct (le_lt_dec 3 (ticks (String c s))) as [H|H]; [|done].
    apply ticks_prefix in H. congruence. }
  simpl in *. destruct (is_char "`" c); [|lia].
  rewrite ticks_kept in E' by lia. lia.
Qed.

Lemma lstrip_suffix (s : string) : exists before, s = before ++ lstrip s.
Proof.
  induction s as [|c s [b IH]]; [by exists ""|]. simpl.
  destruct (is_space c); [|by exists ""].
  exists (String c b). by rewrite append_cons, <- IH.
Qed.

Lemma rstrip_prefix (s : string) : exists after, s = rstrip s ++ after.
Proof.
  induction s as [|c s [a IH]]; [by exists ""|]. simpl.
  destruct (rstrip s) as [|y r] eqn:E.
  - destruct (is_space c); [by exists (String c s)|].
    exists s. done.
  - exists a. by rewrite append_cons, <- IH.
Qed.

Lemma contains_strip (n s : string) :
  contains n (strip s) = true -> contains n s = true.
Proof.
  rewrite !contains_spec. intros (b & a & E). unfold strip in E.
  destruct (lstrip_suffix s) as [pre Hpre].
  destruct (rstrip_prefix (lstrip s)) as [post Hpost].
  exists (pre ++ b), (a ++ post).
  rewrite Hpre, Hpost, E. by rewrite !append_assoc.
Qed.

(** X21.  The text that [parse_resume_with_gemini] hands to [json.loads]
    holds no code fence: whatever the model answers, no three backticks
    in a row are left and no white space at either end; an answer without
    fence reaches the parser as it is, stripped.  When the model or the
    parser raises, the result is the dictionary of the handler. *)
Theorem X21_no_code_fence_reaches_the_parser {A}
    (generate_content : string -> option string)
    (json_loads : string -> option A) (fallback : A)
    (text resume_text : string) :
  contains "```" (Api.remove_code_fences text) = false
  /\ (forall c r, Api.remove_code_fences text = String c r ->
                  is_space c = false)
  /\ (forall b c, Api.remove_code_fences text = b ++ String c "" ->
                  is_space c = false)
  /\ (contains "```" text = false -> Api.remove_code_fences text = strip text)
  /\ (generate_content resume_text = None
      \/ (exists answer,
             generate_content resume_text = Some answer
             /\ json_loads (Api.remove_code_fences (strip answer)) = None) ->
      Api.parse_resume_with_gemini generate_content json_loads fallback
        resume_text = fallback).
Proof.
  unfold Api.remove_code_fences.
  set (t1 := if contains "```json" text
             then replace "```json" "" text else text).
  set (t2 := if contains "```" t1 then replace "```" "" t1 else t1).
  assert (H2 : contains "```" t2 = false).
  { subst t2. destruct (contains "```" t1) eqn:E; [|done].
    apply no_fence_left. }
  split; [|split; [|split; [|split]]].
  - destruct (contains "```" (strip t2)) eqn:E; [|done].
    apply contains_strip in E. congruence.
  - intros c r H. unfold strip in H.
    apply rstrip_head in H as [r' H]. by eapply lstrip_head.
  - intros b c H. by eapply rstrip_last.
  - intros H. subst t2 t1.
    destruct (contains "```json" text) eqn:E.
    + assert (contains "```" text = true); [|congruence].
      by apply (contains_trans "```" "```json" text).
    + by rewrite H.
  - unfold Api.parse_resume_with_gemini, Api.remove_code_fences.
    intros [->|(answer & -> & ->)]; done.
Qed.

Lemma X21_witness :
  Api.remove_code_fences "{}" = strip "{}".
Proof.
  apply (X21_no_code_fence_reaches_the_parser
           (fun _ => @None string) (fun _ => @None nat) 0 "{}" "").
  reflexivity.
Defined.

End Fences.

(** ** Signing in with Google (main.py) *)

Section SignInEndpoint.
Import Api.

Lemma user_by_email_Some (db : database) (e : string) (u : user) :
  user_by_email db e = Some u -> u ∈ users db /\ email u = e.
Proof.
  intros [H1 H2]%find_elem. split; [done|]. by apply String.eqb_eq.
Qed.

Lemma user_by_email_found (rows : list user) (e : string) (u : user) :
  u ∈ rows -> email u = e ->
  is_Some (List.find (fun u => String.eqb (email u) e) rows).
Proof.
  intros Hin He.
  destruct (List.find _ rows) eqn:E; [by eexists|].
  pose proof (find_None_elem _ _ u E Hin) as Hf. simpl in Hf.
  rewrite He, String.eqb_refl in Hf. done.
Qed.

(** With distinct ids, writing a row over the rows that carry its id
    changes that row only. *)
Lemma rewrite_row {B} (rows : list user) (u u' : user) (f : user -> B) :
  NoDup (user_id <$> rows) -> u ∈ rows -> f u' = f u ->
  f <$> ((fun row => if Z.eqb (user_id row) (user_id u) then u' else row)
           <$> rows)
  = f <$> rows.
Proof.
  intros Hnd Hu Hf. rewrite <- list_fmap_compose.
  apply list_fmap_ext. intros i row Hrow. simpl.
  destruct (Z.eqb_spec (user_id row) (user_id u)) as [E|]; [|done].
  assert (row = u) as ->; [|done].
  eapply (NoDup_fmap_inj user_id); eauto.
  by eapply list_elem_of_lookup_2.
Qed.

(** X22.  /auth/google/verify creates a user once: a verified token with
    an e-mail and a subject signs in the user with that e-mail, who is
    new exactly when no row had the e-mail; afterwards the row is there,
    so the same token signs in an existing user and adds no row.  The
    name of the row becomes the name of the token, the empty string when
    the token has none.  With distinct ids, the e-mails stay distinct.
    A token that fails verification with [ValueError] is answered 401,
    every other failure 500, and the database is left as it was. *)
Theorem X22_sign_in_creates_the_user_once
    (verify : string -> Auth.verification) (db : database) (token : string) :
  let after := verify_google_token verify db token in
  (forall status_code,
      after.2 = HTTPException status_code ->
      after.1 = db
      /\ (status_code = 401%Z /\ (exists m, verify token = Auth.Invalid m)
          \/ status_code = 500%Z
             /\ forall m, verify token <> Auth.Invalid m))
  /\ (forall is_new u t,
        after.2 = Returned (SignedIn is_new u t) ->
        t = token
        /\ (exists idinfo,
               verify token = Auth.Verified idinfo
               /\ idinfo !! "email" = Some (email u)
               /\ name u = Some (default "" (idinfo !! "name")))
        /\ (is_new = true <-> user_by_email db (email u) = None)
        /\ is_Some (user_by_email after.1 (email u))
        /\ length (users after.1)
           = length (users db) + (if is_new then 1 else 0)
        /\ exists u2,
             (verify_google_token verify after.1 token).2
             = Returned (SignedIn false u2 token)
             /\ length (users (verify_google_token verify after.1 token).1)
                = length (users after.1))
  /\ (NoDup (user_id <$> users db) -> NoDup (email <$> users db) ->
      NoDup (user_id <$> users after.1) /\ NoDup (email <$> users after.1)).
Proof.
  intros after. subst after. unfold verify_google_token.
  destruct (verify token) as [idinfo|m|] eqn:Ev.
  2:{ split; [|split; [done|done]]. intros s [= <-]. split; [done|].
      left. split; [done|]. by exists m. }
  2:{ split; [|split; [done|done]]. intros s [= <-]. split; [done|].
      right. split; [done|]. done. }
  destruct (idinfo !! "email") as [e|] eqn:Ee.
  2:{ split; [|split; [done|done]]. intros s [= <-]. split; [done|].
      right. split; done. }
  destruct (idinfo !! "sub") as [sub|] eqn:Es.
  2:{ split; [|split; [done|done]]. intros s [= <-]. split; [done|].
      right. split; done. }
  destruct (user_by_email db e) as [u|] eqn:Eu.
  - (* an existing user *)
    apply user_by_email_Some in Eu as Hu. destruct Hu as [Hin He].
    set (u' := {| user_id := user_id u; email := email u;
                  name := Some (default "" (idinfo !! "name"));
                  phone := phone u; linkedin := linkedin u;
                  profile_picture :=
                    Some (default "" (idinfo !! "picture")) |}).
    set (rows := (fun row => if Z.eqb (user_id row) (user_id u)
                             then u' else row) <$> users db).
    assert (Hfound : is_Some
              (List.find (fun u0 => String.eqb (email u0) e) rows)).
    { apply (user_by_email_found rows e u'); [|exact He].
      apply list_elem_of_fmap. exists u. split; [|done].
      simpl. by rewrite Z.eqb_refl. }
    split; [done|]. split.
    + intros is_new u0 t [= <- <- <-]. simpl. rewrite He, Eu.
      split; [done|]. split; [by exists idinfo|]. split; [done|].
      split; [exact Hfound|]. split; [unfold rows; rewrite length_fmap; lia|].
      unfold user_by_email. simpl. destruct Hfound as [u1 ->].
      eexists. split; [reflexivity|]. simpl. by rewrite length_fmap.
    + intros Hid Hem. simpl. unfold rows. split.
      * by rewrite (rewrite_row (users db) u u' user_id).
      * by rewrite (rewrite_row (users db) u u' email).
  - (* a new user *)
    split; [done|]. split.
    + intros is_new u0 t [= <- <- <-]. simpl. rewrite Eu.
      split; [done|]. split; [by exists idinfo|]. split; [done|].
      assert (Hfound :
        List.find (fun u0 => String.eqb (email u0) e)
          (users db ++
             [ {| user_id := next_id (user_id <$> users db);
                  email := e;
                  name := Some (default "" (idinfo !! "name"));
                  phone := None; linkedin := None;
                  profile_picture := Some (default "" (idinfo !! "picture")) |} ])
        = Some {| user_id := next_id (user_id <$> users db);
                  email := e;
                  name := Some (default "" (idinfo !! "name"));
                  phone := None; linkedin := None;
                  profile_picture :=
                    Some (default "" (idinfo !! "picture")) |}).
      { rewrite find_app. unfold user_by_email in Eu. rewrite Eu. simpl.
        by rewrite String.eqb_refl. }
      unfold user_by_email. simpl. rewrite Hfound.
      split; [by eexists|]. split; [rewrite length_app; simpl; lia|].
      eexists. split; [reflexivity|]. simpl. by rewrite length_fmap.
    + intros Hid Hem. simpl. rewrite !fmap_app. split.
      * apply NoDup_app. split; [done|]. split; [|apply NoDup_singleton].
        intros i Hi Hin. apply elem_of_cons in Hin as [->|?%elem_of_nil];
          [|done].
        apply next_id_fresh in Hi. simpl in Hi. lia.
      * apply NoDup_app. split; [done|]. split; [|apply NoDup_singleton].
        intros x Hx Hin. apply elem_of_cons in Hin as [->|?%elem_of_nil];
          [|done].
        apply list_elem_of_fmap in Hx as (row & Hr & Hrow). simpl in Hr.
        unfold user_by_email in Eu.
        pose proof (find_None_elem _ _ row Eu Hrow) as Hf. simpl in Hf.
        rewrite <- Hr, String.eqb_refl in Hf. done.
Qed.

End SignInEndpoint.
